(** * Demo runners and test harness of the model-demo collection

    A shallow embedding of

    - [cv_demos/densenet/pytorch_densenet_121_hf_xray.py]
      ([get_input_img], [run_densenet_121_hf_xray_pytorch]),
    - [nlp_demos/flan_t5/pytorch_flan_t5_generation.py]
      ([run_flan_t5_pybuda_pipeline]),
    - the test modules under [tests/].

    The runners are sequential Python scripts that mutate process-wide
    state ([os.environ], the global compiler configuration), call
    third-party libraries (numpy, torch, torchxrayvision, the model hub,
    the compiler/runtime) and print.  They are embedded in a state and
    exception monad over a [process] record; every third-party call is a
    field of a [World] record and leaves an [event] in the process log. *)

From Stdlib Require Import QArith.
From stdpp Require Import base option list strings gmap pretty.

Local Close Scope Q_scope.
Local Open Scope Z_scope.
Local Open Scope nat_scope.
Local Open Scope string_scope.
Local Open Scope list_scope.
Local Open Scope stdpp_scope.

(* ===================================================================== *)
(** ** Python exceptions and results *)
(* ===================================================================== *)

(** The exception classes that the modelled statements can raise.
    [ExternalError] stands for whatever a third-party call raised
    (a network failure, a device fault, a missing checkpoint). *)
Inductive exn : Type :=
  | IndexError (msg : string)
  | KeyError (key : string)
  | TypeError (msg : string)
  | RuntimeError (msg : string)
  | ValueError (msg : string)
  | ExternalError (msg : string).

Inductive result (A : Type) : Type :=
  | Ok (a : A)
  | Raise (e : exn).
Arguments Ok {A} a.
Arguments Raise {A} e.

Definition is_ok {A} (r : result A) : bool :=
  match r with Ok _ => true | Raise _ => false end.

(** A validation error is what an argument check at the top of a
    function would raise ([ValueError], or the [AssertionError] family,
    which this model folds into [ValueError]). *)
Definition is_validation_error (e : exn) : bool :=
  match e with ValueError _ => true | _ => false end.

(* ===================================================================== *)
(** ** Arrays and tensors *)
(* ===================================================================== *)

(** A numpy array or torch tensor: its shape and its elements in
    row-major order.  Elements are rationals standing for the floats. *)
Record tensor : Type := Tensor { shape : list nat; data : list Q }.

Definition rank (t : tensor) : nat := length (shape t).

Definition numel (sh : list nat) : nat := foldr Nat.mul 1 sh.

(** Size of dimension 0 (0 for a zero-dimensional tensor). *)
Definition dim0 (t : tensor) : nat := hd 0 (shape t).

(** [chunks k n l]: the first [n] consecutive blocks of [k] elements. *)
Fixpoint chunks {A} (k n : nat) (l : list A) : list (list A) :=
  match n with
  | O => []
  | S n' => take k l :: chunks k n' (drop k l)
  end.

(** numpy [img[:, :, 0]]: index 0 of axis 2, all of axes 0 and 1. *)
Definition index_axis2_first (a : tensor) : result tensor :=
  match shape a with
  | d0 :: d1 :: d2 :: rest =>
      if Nat.eqb d2 0 then
        Raise (IndexError "index 0 is out of bounds for axis 2 with size 0")
      else
        let inner := numel rest in
        Ok {| shape := d0 :: d1 :: rest;
              data := concat (take inner <$> chunks (d2 * inner) (d0 * d1) (data a)) |}
  | _ => Raise (IndexError "too many indices for array")
  end.

(** numpy [img[None, :, :]]: two slices need at least two axes; the new
    leading axis has size 1. *)
Definition new_axis_2d (a : tensor) : result tensor :=
  match shape a with
  | _ :: _ :: _ => Ok {| shape := 1 :: shape a; data := data a |}
  | _ => Raise (IndexError "too many indices for array")
  end.

(** torch [t.unsqueeze(0)]. *)
Definition unsqueeze0 (t : tensor) : tensor :=
  {| shape := 1 :: shape t; data := data t |}.

Definition tail_shape_is (tl : list nat) (t : tensor) : bool :=
  match shape t with
  | [] => false
  | _ :: tl' => bool_decide (tl' = tl)
  end.

(** torch [torch.cat(ts, dim=0)]. *)
Definition torch_cat (ts : list tensor) : result tensor :=
  match ts with
  | [] => Raise (RuntimeError "torch.cat(): expected a non-empty list of Tensors")
  | t :: _ =>
      match shape t with
      | [] => Raise (RuntimeError "zero-dimensional tensor cannot be concatenated")
      | _ :: tl =>
          if forallb (tail_shape_is tl) ts then
            Ok {| shape := sum_list (dim0 <$> ts) :: tl;
                  data := concat (data <$> ts) |}
          else
            Raise (RuntimeError "Sizes of tensors must match except in dimension 0")
      end
  end.

(** Iterating over an array yields its slices along axis 0. *)
Definition rows (t : tensor) : result (list tensor) :=
  match shape t with
  | [] => Raise (TypeError "iteration over a 0-d array")
  | d :: tl => Ok ((fun c => {| shape := tl; data := c |}) <$> chunks (numel tl) d (data t))
  end.

(* ===================================================================== *)
(** ** Process state *)
(* ===================================================================== *)

(** [pybuda._C.backend_api.BackendDevice] (declared by the runtime). *)
Inductive BackendDevice : Type := Grayskull | Wormhole_B0 | Blackhole.

Global Instance BackendDevice_eq_dec : EqDecision BackendDevice.
Proof. solve_decision. Defined.

(** [pybuda._C.DataFormat]; only [Float16_b] is named by the runners. *)
Inductive DataFormat : Type := Float32 | Float16 | Float16_b | Bfp8_b.

Global Instance DataFormat_eq_dec : EqDecision DataFormat.
Proof. solve_decision. Defined.

(** The attributes of the global compiler configuration object that the
    two runners assign. *)
Record CompilerConfig : Type := {
  enable_tm_cpu_fallback : bool;
  enable_tvm_constant_prop : bool;
  cpu_fallback_ops : gset string;
  balancer_policy : string;
  default_df_override : option DataFormat;
  enable_tvm_cpu_fallback : bool;
  default_dram_parameters : option bool;
  input_queues_on_host : bool;
  amp_level : option nat
}.

(** A wrapped model, [pybuda.PyTorchModule(name, model)]. *)
Record PyTorchModule : Type := { module_name : string; wrapped_model : string }.

(** Values of a hub configuration dictionary. *)
Inductive cfgval : Type :=
  | CBool (b : bool)
  | CInt (z : Z)
  | CStr (s : string).

(** A loaded sequence-to-sequence model. *)
Record hf_model : Type := {
  model_ckpt : string;
  model_config : gmap string cfgval;
  eval_mode : bool
}.

(** The construction arguments of the text2text pipeline. *)
Record pipeline : Type := {
  pipe_task : string;
  pipe_model : hf_model;
  pipe_tokenizer : string;
  pipe_batch_size : Z;
  pybuda_max_length : Z
}.

(** One call of the text2text generator. *)
Record gen_request : Type := {
  prompts : list string;
  max_length : Z;
  num_beams : Z;
  num_return_sequences : Z;
  no_repeat_ngram_size : Z
}.

(** What [print] wrote. *)
Inductive printed : Type :=
  | PrintStr (s : string)
  | PrintDict (d : gmap string tensor).

(** Calls that leave the process. *)
Inductive event : Type :=
  | EvDetectDevices
  | EvHttpGet (url : string)
  | EvGetModel (name : string)
  | EvHubFetch (what : string) (ckpt : string)
  | EvRunInference (m : PyTorchModule) (inputs : list tensor)
  | EvGenerate (p : pipeline) (req : gen_request).

Record process : Type := {
  environ : gmap string string;
  compiler_cfg : CompilerConfig;
  events : list event;
  stdout : list printed
}.

(* ===================================================================== *)
(** ** The state and exception monad *)
(* ===================================================================== *)

Definition M (A : Type) : Type := process -> result A * process.

Definition ret {A} (a : A) : M A := fun s => (Ok a, s).

Definition bind {A B} (m : M A) (k : A -> M B) : M B :=
  fun s =>
    match m s with
    | (Ok a, s') => k a s'
    | (Raise e, s') => (Raise e, s')
    end.

Definition raise {A} (e : exn) : M A := fun s => (Raise e, s).

(** Lift the result of a pure library call. *)
Definition lift {A} (r : result A) : M A := fun s => (r, s).

Definition get_state : M process := fun s => (Ok s, s).

Definition modify (f : process -> process) : M unit := fun s => (Ok tt, f s).

Declare Scope py_scope.
Delimit Scope py_scope with py.
Notation "'let*' x ':=' m 'in' k" := (bind m (fun x => k))
  (at level 10, x name, m at level 100, k at level 200) : py_scope.
Notation "m ';;;' k" := (bind m (fun _ => k))
  (at level 100, k at level 200, right associativity) : py_scope.
Local Open Scope py_scope.

Definition set_environ (k v : string) : M unit :=
  modify (fun s => {| environ := <[k := v]> (environ s);
                      compiler_cfg := compiler_cfg s;
                      events := events s;
                      stdout := stdout s |}).

Definition set_cfg (f : CompilerConfig -> CompilerConfig) : M unit :=
  modify (fun s => {| environ := environ s;
                      compiler_cfg := f (compiler_cfg s);
                      events := events s;
                      stdout := stdout s |}).

Definition log (e : event) : M unit :=
  modify (fun s => {| environ := environ s;
                      compiler_cfg := compiler_cfg s;
                      events := events s ++ [e];
                      stdout := stdout s |}).

Definition print (p : printed) : M unit :=
  modify (fun s => {| environ := environ s;
                      compiler_cfg := compiler_cfg s;
                      events := events s;
                      stdout := stdout s ++ [p] |}).

(** The state after some more calls and prints; the environment and the
    compiler configuration are as before. *)
Definition emit (s : process) (evs : list event) (out : list printed) : process :=
  {| environ := environ s;
     compiler_cfg := compiler_cfg s;
     events := events s ++ evs;
     stdout := stdout s ++ out |}.

(** [os.environ.get(k, default)]. *)
Definition environ_get (k dflt : string) : M string :=
  fun s => (Ok (default dflt (environ s !! k)), s).

(** Python [l[i]] on a list. *)
Definition list_index {A} (l : list A) (i : nat) : result A :=
  match l !! i with
  | Some x => Ok x
  | None => Raise (IndexError "list index out of range")
  end.

(** Python [d[k]] on a dictionary with string keys. *)
Definition dict_index {A} (d : gmap string A) (k : string) : result A :=
  match d !! k with
  | Some x => Ok x
  | None => Raise (KeyError k)
  end.

(** [for x in xs: body(x)]. *)
Fixpoint for_each {A} (xs : list A) (body : A -> M unit) : M unit :=
  match xs with
  | [] => ret tt
  | x :: xs' => body x ;;; for_each xs' body
  end.

(** Attribute assignments on the compiler configuration object. *)
Definition set_enable_tm_cpu_fallback (b : bool) (c : CompilerConfig) : CompilerConfig :=
  {| enable_tm_cpu_fallback := b;
     enable_tvm_constant_prop := enable_tvm_constant_prop c;
     cpu_fallback_ops := cpu_fallback_ops c;
     balancer_policy := balancer_policy c;
     default_df_override := default_df_override c;
     enable_tvm_cpu_fallback := enable_tvm_cpu_fallback c;
     default_dram_parameters := default_dram_parameters c;
     input_queues_on_host := input_queues_on_host c;
     amp_level := amp_level c |}.

Definition set_enable_tvm_constant_prop (b : bool) (c : CompilerConfig) : CompilerConfig :=
  {| enable_tm_cpu_fallback := enable_tm_cpu_fallback c;
     enable_tvm_constant_prop := b;
     cpu_fallback_ops := cpu_fallback_ops c;
     balancer_policy := balancer_policy c;
     default_df_override := default_df_override c;
     enable_tvm_cpu_fallback := enable_tvm_cpu_fallback c;
     default_dram_parameters := default_dram_parameters c;
     input_queues_on_host := input_queues_on_host c;
     amp_level := amp_level c |}.

Definition add_cpu_fallback_op (op : string) (c : CompilerConfig) : CompilerConfig :=
  {| enable_tm_cpu_fallback := enable_tm_cpu_fallback c;
     enable_tvm_constant_prop := enable_tvm_constant_prop c;
     cpu_fallback_ops := {[ op ]} ∪ cpu_fallback_ops c;
     balancer_policy := balancer_policy c;
     default_df_override := default_df_override c;
     enable_tvm_cpu_fallback := enable_tvm_cpu_fallback c;
     default_dram_parameters := default_dram_parameters c;
     input_queues_on_host := input_queues_on_host c;
     amp_level := amp_level c |}.

Definition set_balancer_policy (p : string) (c : CompilerConfig) : CompilerConfig :=
  {| enable_tm_cpu_fallback := enable_tm_cpu_fallback c;
     enable_tvm_constant_prop := enable_tvm_constant_prop c;
     cpu_fallback_ops := cpu_fallback_ops c;
     balancer_policy := p;
     default_df_override := default_df_override c;
     enable_tvm_cpu_fallback := enable_tvm_cpu_fallback c;
     default_dram_parameters := default_dram_parameters c;
     input_queues_on_host := input_queues_on_host c;
     amp_level := amp_level c |}.

Definition set_default_df_override (f : DataFormat) (c : CompilerConfig) : CompilerConfig :=
  {| enable_tm_cpu_fallback := enable_tm_cpu_fallback c;
     enable_tvm_constant_prop := enable_tvm_constant_prop c;
     cpu_fallback_ops := cpu_fallback_ops c;
     balancer_policy := balancer_policy c;
     default_df_override := Some f;
     enable_tvm_cpu_fallback := enable_tvm_cpu_fallback c;
     default_dram_parameters := default_dram_parameters c;
     input_queues_on_host := input_queues_on_host c;
     amp_level := amp_level c |}.

Definition set_enable_tvm_cpu_fallback (b : bool) (c : CompilerConfig) : CompilerConfig :=
  {| enable_tm_cpu_fallback := enable_tm_cpu_fallback c;
     enable_tvm_constant_prop := enable_tvm_constant_prop c;
     cpu_fallback_ops := cpu_fallback_ops c;
     balancer_policy := balancer_policy c;
     default_df_override := default_df_override c;
     enable_tvm_cpu_fallback := b;
     default_dram_parameters := default_dram_parameters c;
     input_queues_on_host := input_queues_on_host c;
     amp_level := amp_level c |}.

Definition set_default_dram_parameters (b : bool) (c : CompilerConfig) : CompilerConfig :=
  {| enable_tm_cpu_fallback := enable_tm_cpu_fallback c;
     enable_tvm_constant_prop := enable_tvm_constant_prop c;
     cpu_fallback_ops := cpu_fallback_ops c;
     balancer_policy := balancer_policy c;
     default_df_override := default_df_override c;
     enable_tvm_cpu_fallback := enable_tvm_cpu_fallback c;
     default_dram_parameters := Some b;
     input_queues_on_host := input_queues_on_host c;
     amp_level := amp_level c |}.

Definition set_input_queues_on_host (b : bool) (c : CompilerConfig) : CompilerConfig :=
  {| enable_tm_cpu_fallback := enable_tm_cpu_fallback c;
     enable_tvm_constant_prop := enable_tvm_constant_prop c;
     cpu_fallback_ops := cpu_fallback_ops c;
     balancer_policy := balancer_policy c;
     default_df_override := default_df_override c;
     enable_tvm_cpu_fallback := enable_tvm_cpu_fallback c;
     default_dram_parameters := default_dram_parameters c;
     input_queues_on_host := b;
     amp_level := amp_level c |}.

(* ===================================================================== *)
(** ** The third-party collaborators *)
(* ===================================================================== *)

(** Everything the runners call outside this repository.  The runtime
    and the generator read the process-wide configuration, so they take
    the environment and the compiler configuration as arguments. *)
Record World : Type := {
  (** [pybuda.detect_available_devices()] *)
  detect_available_devices : list BackendDevice;
  (** [np.array(Image.open(requests.get(url, stream=True).raw))] *)
  fetch_image : string -> result tensor;
  (** [xrv.datasets.normalize(img, maxval)] *)
  xrv_normalize : tensor -> Z -> result tensor;
  (** [Compose([XRayCenterCrop(), XRayResizer(224)])(img)] *)
  xrv_transform : tensor -> result tensor;
  (** [xrv.models.get_model(name)] *)
  xrv_get_model : string -> result string;
  (** [xrv.datasets.default_pathologies] *)
  default_pathologies : list string;
  (** [pybuda.run_inference(module, inputs).get()] *)
  run_inference :
    gmap string string -> CompilerConfig -> PyTorchModule -> list tensor ->
    result (list tensor);
  (** [compiler_cfg.enable_amp_light()] *)
  enable_amp_light : CompilerConfig -> CompilerConfig;
  (** [T5Config.from_pretrained(ckpt).to_dict()] *)
  T5Config_from_pretrained : string -> result (gmap string cfgval);
  (** [AutoModelForSeq2SeqLM.from_pretrained(ckpt, config=config)], the
      configuration rebuilt from the edited dictionary *)
  AutoModel_from_pretrained : string -> gmap string cfgval -> result hf_model;
  (** [AutoTokenizer.from_pretrained(ckpt)] *)
  AutoTokenizer_from_pretrained : string -> result string;
  (** [pybuda_pipeline(task, model=, tokenizer=, batch_size=, pybuda_max_length=)] *)
  pybuda_pipeline : pipeline -> result unit;
  (** the call of the generator object *)
  text2text_generate :
    gmap string string -> CompilerConfig -> pipeline -> gen_request ->
    result (list (gmap string string))
}.

(* ===================================================================== *)
(** ** DenseNet-121 X-ray demo *)
(* ===================================================================== *)

Definition xray_url : string :=
  "https://huggingface.co/spaces/torchxrayvision/torchxrayvision-classifier/resolve/main/16747_3_1.jpg".

Definition rank_error_message : string := "error, dimension lower than 2 for image".

Definition get_input_img (w : World) : M tensor :=
  (* Get image *)
  log (EvHttpGet xray_url) ;;;
  let* sample_image := lift (fetch_image w xray_url) in
  (* Preprocess *)
  let* img := lift (xrv_normalize w sample_image 255) in
  (* Check that images are 2D arrays *)
  let* img := (if Nat.ltb 2 (rank img) then lift (index_axis2_first img) else ret img) in
  (if Nat.ltb (rank img) 2 then print (PrintStr rank_error_message) else ret tt) ;;;
  (* Add color channel *)
  let* img := lift (new_axis_2d img) in
  let* img := lift (xrv_transform w img) in
  ret (unsqueeze0 img).

(** Lines 48-65: the configuration step. *)
Definition densenet_configure (w : World) : M unit :=
  set_cfg (set_enable_tm_cpu_fallback true) ;;;
  set_cfg (set_enable_tvm_constant_prop true) ;;;
  set_cfg (add_cpu_fallback_op "adv_index") ;;;
  set_environ "PYBUDA_DISABLE_CONSTANT_FOLDING" "1" ;;;
  (* Device specific configurations *)
  log EvDetectDevices ;;;
  let available_devices := detect_available_devices w in
  match available_devices with
  | [] => ret tt
  | d :: _ =>
      if decide (d = Wormhole_B0) then
        set_cfg (set_balancer_policy "Ribbon") ;;;
        set_cfg (set_default_df_override Float16_b)
      else
        set_cfg (set_balancer_policy "CNN") ;;;
        set_environ "PYBUDA_PAD_SPARSE_MM" "{25:32}"
  end.

(** Lines 81-85: combine outputs for data parallel runs. *)
Definition combine_outputs (flag : string) (output : list tensor) : result (list tensor) :=
  if decide (flag = "1") then
    match list_index output 0 with
    | Raise e => Raise e
    | Ok o0 =>
        match list_index output 1 with
        | Raise e => Raise e
        | Ok o1 =>
            match torch_cat [o0; o1] with
            | Raise e => Raise e
            | Ok concat_tensor => Ok [concat_tensor]
            end
        end
    end
  else Ok output.

(** Line 88: the dictionary comprehension over [zip]; a later pair with
    the same key replaces the earlier one. *)
Definition dict_of_pairs {A} (kvs : list (string * A)) : gmap string A :=
  foldl (fun d kv => <[kv.1 := kv.2]> d) ∅ kvs.

Definition postprocess (pathologies : list string) (output : list tensor)
  : result (gmap string tensor) :=
  match list_index output 0 with
  | Raise e => Raise e
  | Ok o0 =>
      match rows o0 with
      | Raise e => Raise e
      | Ok vs => Ok (dict_of_pairs (zip pathologies vs))
      end
  end.

Definition data_parallel_flag : string := "PYBUDA_N300_DATA_PARALLEL".

(** Lines 87-91: data postprocessing and the print of the mapping. *)
Definition densenet_print_preds (w : World) (output : list tensor) : M unit :=
  (* Data postprocessing *)
  let* preds := lift (postprocess (default_pathologies w) output) in
  (* Print output *)
  print (PrintDict preds).

(** Lines 81-91: what the runner does with the value of [output_q.get()]. *)
Definition densenet_report (w : World) (output : list tensor) : M unit :=
  (* Combine outputs for data parallel runs *)
  let* flag := environ_get data_parallel_flag "0" in
  let* output := lift (combine_outputs flag output) in
  densenet_print_preds w output.

Definition densenet_model_name : string := "densenet121-res224-all".

Definition densenet_module (model : string) : PyTorchModule :=
  {| module_name := "densnet121_pt"; wrapped_model := model |}.

Definition run_densenet_121_hf_xray_pytorch (w : World) (batch_size : Z) : M unit :=
  (* Set PyBuda configuration parameters *)
  densenet_configure w ;;;
  (* Load input image *)
  let* img_tensor := get_input_img w in
  let n_img_tensor := replicate (Z.to_nat batch_size) img_tensor in
  let* batch_tensor := lift (torch_cat n_img_tensor) in
  (* Create PyBuda module from PyTorch model *)
  log (EvGetModel densenet_model_name) ;;;
  let* model := lift (xrv_get_model w densenet_model_name) in
  let tt_model := densenet_module model in
  (* Run inference on Tenstorrent device *)
  log (EvRunInference tt_model [batch_tensor]) ;;;
  let* s := get_state in
  let* output := lift (run_inference w (environ s) (compiler_cfg s) tt_model [batch_tensor]) in
  densenet_report w output.

(* ===================================================================== *)
(** ** FLAN-T5 conditional generation demo *)
(* ===================================================================== *)

Definition flan_prompt : string := "A step by step recipe to make bolognese pasta:".

(** Lines 15-28: the configuration step. *)
Definition flan_configure (w : World) : M unit :=
  set_environ "PYBUDA_DISABLE_STREAM_OUTPUT" "1" ;;;
  set_environ "PYBUDA_PAD_OUTPUT_BUFFER" "1" ;;;
  set_environ "TT_BACKEND_MULTI_THREADED_PUSH" "1" ;;;
  set_environ "PYBUDA_DISABLE_DYNAMIC_DRAM" "1" ;;;
  set_environ "PYBUDA_FORCE_SEQUENTIAL" "1" ;;;
  set_environ "PYBUDA_NLP_MANUAL_TARGET" "30000" ;;;
  set_environ "TT_BACKEND_DRAM_POLLING_FREQUENCY" "64" ;;;
  set_cfg (set_enable_tvm_cpu_fallback false) ;;;
  set_cfg (set_default_df_override Float16_b) ;;;
  set_cfg (set_default_dram_parameters false) ;;;
  set_cfg (set_input_queues_on_host true) ;;;
  set_cfg (enable_amp_light w).

Definition with_eval (m : hf_model) : hf_model :=
  {| model_ckpt := model_ckpt m; model_config := model_config m; eval_mode := true |}.

(** Lines 67-70: the report of one sample. *)
Definition report_sample (prefix_text : list string)
    (answer : list (gmap string string)) (sample_id : nat) : M unit :=
  print (PrintStr ("Sample ID: " +:+ pretty sample_id)) ;;;
  let* p := lift (list_index prefix_text sample_id) in
  print (PrintStr ("Prefix text: " +:+ p)) ;;;
  let* a := lift (list_index answer sample_id) in
  let* g := lift (dict_index a "generated_text") in
  print (PrintStr ("Generated text: " +:+ g)).

(** Lines 49-55: the arguments of the generator's constructor. *)
Definition flan_generator (model : hf_model) (tokenizer : string) (batch_size : Z)
  : pipeline :=
  {| pipe_task := "text2text-generation";
     pipe_model := model;
     pipe_tokenizer := tokenizer;
     pipe_batch_size := batch_size;
     pybuda_max_length := 32 |}.

(** Lines 58-64: the arguments of the generator's call. *)
Definition flan_request (prefix_text : list string) : gen_request :=
  {| prompts := prefix_text;
     max_length := 20;
     num_beams := 1;
     num_return_sequences := 1;
     no_repeat_ngram_size := 2 |}.

(** Lines 35-37: the edits of the configuration dictionary. *)
Definition flan_config_dict (config_dict : gmap string cfgval) : gmap string cfgval :=
  <["use_cache" := CBool false]> (<["return_dict" := CBool false]> config_dict).

Definition run_flan_t5_pybuda_pipeline (w : World) (variant : string) (batch_size : Z)
  : M unit :=
  (* Add PyBUDA configurations *)
  flan_configure w ;;;
  let model_ckpt := variant in
  (* Set model configurations *)
  log (EvHubFetch "config" model_ckpt) ;;;
  let* config_dict := lift (T5Config_from_pretrained w model_ckpt) in
  let config_dict := flan_config_dict config_dict in
  (* Load tokenizer and model from HuggingFace *)
  log (EvHubFetch "model" model_ckpt) ;;;
  let* model := lift (AutoModel_from_pretrained w model_ckpt config_dict) in
  let model := with_eval model in
  log (EvHubFetch "tokenizer" model_ckpt) ;;;
  let* tokenizer := lift (AutoTokenizer_from_pretrained w model_ckpt) in
  (* Sample prompt *)
  let prefix_text := replicate (Z.to_nat batch_size) flan_prompt in
  (* Initialize text2text generator *)
  let text2text_generator := flan_generator model tokenizer batch_size in
  lift (pybuda_pipeline w text2text_generator) ;;;
  (* Run inference on Tenstorrent device *)
  let req := flan_request prefix_text in
  log (EvGenerate text2text_generator req) ;;;
  let* s := get_state in
  let* answer := lift (text2text_generate w (environ s) (compiler_cfg s) text2text_generator req) in
  (* Report output *)
  for_each (seq 0 (Z.to_nat batch_size)) (report_sample prefix_text answer).

Definition flan_default_variant : string := "google/flan-t5-small".

(* ===================================================================== *)
(** ** Test harness *)
(* ===================================================================== *)

Module Harness.

(** An argument value in a call. *)
Inductive pyarg : Type :=
  | ANone
  | AStr (s : string)
  | AInt (z : Z)
  | AFixture (name : string).

(** A call of a demo runner: callee, positional and keyword arguments. *)
Record call : Type := {
  callee : string;
  positional : list pyarg;
  keywords : list (string * pyarg)
}.

(** A test function: marker, the [parametrize] list when it has one,
    the parameter names of its signature, and its body as a function
    of the arguments pytest passes by name. *)
Record test_function : Type := {
  test_name : string;
  marker : string;
  parametrize : option (list string);
  params : list string;
  body : gmap string pyarg -> call
}.

Definition arg (args : gmap string pyarg) (name : string) : pyarg :=
  default ANone (args !! name).

(** The two shapes of test body in the test modules. *)
Definition call_with_batch (runner : string) (args : gmap string pyarg) : call :=
  {| callee := runner;
     positional := [];
     keywords := [("batch_size", arg args "batch_size")] |}.

Definition call_with_variant (runner : string) (args : gmap string pyarg) : call :=
  {| callee := runner;
     positional := [arg args "variant"];
     keywords := [("batch_size", arg args "batch_size")] |}.

Definition variant_test (name mark runner : string) (variants : list string)
  : test_function :=
  {| test_name := name; marker := mark; parametrize := Some variants;
     params := ["clear_pybuda"; "test_device"; "variant"; "batch_size"];
     body := call_with_variant runner |}.

Definition batch_test (name mark runner : string) : test_function :=
  {| test_name := name; marker := mark; parametrize := None;
     params := ["clear_pybuda"; "test_device"; "batch_size"];
     body := call_with_batch runner |}.

(** [test_onnx_retinanet.py] *)
Definition test_retinanet_onnx : test_function :=
  batch_test "test_retinanet_onnx" "retinanet" "run_retinanet_r101_640x480_onnx".

(** [test_pytorch_deit.py] *)
Definition deit_variants : list string :=
  ["facebook/deit-base-patch16-224";
   "facebook/deit-base-distilled-patch16-224";
   "facebook/deit-small-patch16-224";
   "facebook/deit-tiny-patch16-224"].

Definition test_deit_classify_224_hf_pytorch : test_function :=
  variant_test "test_deit_classify_224_hf_pytorch" "deit"
    "run_deit_classify_224_hf_pytorch" deit_variants.

(** [test_pytorch_densenet.py] *)
Definition densenet_variants : list string :=
  ["densenet121"; "densenet161"; "densenet169"; "densenet201"].

Definition test_densenet_pytorch : test_function :=
  variant_test "test_densenet_pytorch" "densenet" "run_densenet_pytorch"
    densenet_variants.

Definition test_densenet_121_hf_xray_pytorch : test_function :=
  batch_test "test_densenet_121_hf_xray_pytorch" "densenet"
    "run_densenet_121_hf_xray_pytorch".

(** [test_pytorch_dpr.py] *)
Definition variants_ctx : list string :=
  ["facebook/dpr-ctx_encoder-single-nq-base"; "facebook/dpr-ctx_encoder-multiset-base"].
Definition variants_qe : list string :=
  ["facebook/dpr-question_encoder-single-nq-base";
   "facebook/dpr-question_encoder-multiset-base"].
Definition variants_reader : list string :=
  ["facebook/dpr-reader-single-nq-base"; "facebook/dpr-reader-multiset-base"].

Definition test_dpr_context_encoder_pytorch : test_function :=
  variant_test "test_dpr_context_encoder_pytorch" "dpr"
    "run_dpr_context_encoder_pytorch" variants_ctx.
Definition test_dpr_question_encoder_pytorch : test_function :=
  variant_test "test_dpr_question_encoder_pytorch" "dpr"
    "run_dpr_question_encoder_pytorch" variants_qe.
Definition test_dpr_reader_pytorch : test_function :=
  variant_test "test_dpr_reader_pytorch" "dpr" "run_dpr_reader_pytorch"
    variants_reader.

(** [test_pytorch_vgg.py] *)
Definition variants1 : list string :=
  ["vgg11"; "vgg13"; "vgg16"; "vgg19"; "vgg11_bn"; "vgg13_bn"; "vgg16_bn"; "vgg19_bn"].
Definition variants2 : list string :=
  ["vgg11"; "vgg13"; "vgg16"; "vgg19"; "bn_vgg19"; "bn_vgg19b"].

Definition test_vgg_19_hf_pytorch : test_function :=
  variant_test "test_vgg_19_hf_pytorch" "vgg" "run_vgg_19_hf_pytorch" variants1.
Definition test_vgg_bn19_timm_pytorch : test_function :=
  variant_test "test_vgg_bn19_timm_pytorch" "vgg" "run_vgg_bn19_timm_pytorch" variants1.
Definition test_vgg_bn19_torchhub_pytorch : test_function :=
  variant_test "test_vgg_bn19_torchhub_pytorch" "vgg" "run_vgg_bn19_torchhub_pytorch"
    variants1.
Definition test_vgg_osmr_pytorch : test_function :=
  variant_test "test_vgg_osmr_pytorch" "vgg" "run_vgg_osmr_pytorch" variants2.

(** [test_pytorch_vit.py] *)
Definition vit_variants : list string :=
  ["google/vit-base-patch16-224"; "google/vit-large-patch16-224"].

Definition test_vit_classify_224_hf_pytorch : test_function :=
  variant_test "test_vit_classify_224_hf_pytorch" "vit"
    "run_vit_classify_224_hf_pytorch" vit_variants.
Definition test_vit_classify_224_hf_pytorch_1x1 : test_function :=
  variant_test "test_vit_classify_224_hf_pytorch_1x1" "vit"
    "run_vit_classify_224_hf_pytorch_1x1" vit_variants.

(** [test_tflite_mobilenet_ssd.py] *)
Definition test_mobilenetv2_ssd_1x1_tflite : test_function :=
  {| test_name := "test_mobilenetv2_ssd_1x1_tflite";
     marker := "mobilenetssd";
     parametrize := None;
     params := ["clear_pybuda"; "test_device"];
     body := fun _ =>
       {| callee := "run_mobilenetv2_ssd_1x1_tflite";
          positional := [];
          keywords := [] |} |}.

Definition all_tests : list test_function :=
  [ test_retinanet_onnx;
    test_deit_classify_224_hf_pytorch;
    test_densenet_pytorch;
    test_densenet_121_hf_xray_pytorch;
    test_dpr_context_encoder_pytorch;
    test_dpr_question_encoder_pytorch;
    test_dpr_reader_pytorch;
    test_vgg_19_hf_pytorch;
    test_vgg_bn19_timm_pytorch;
    test_vgg_bn19_torchhub_pytorch;
    test_vgg_osmr_pytorch;
    test_vit_classify_224_hf_pytorch;
    test_vit_classify_224_hf_pytorch_1x1;
    test_mobilenetv2_ssd_1x1_tflite ].

(** pytest calls a test with one argument per parameter name: the
    fixture values, and for a parametrized test one of its variants. *)
Definition test_args (t : test_function) (variant : string) (batch_size : Z)
  : gmap string pyarg :=
  foldr (fun name args =>
           <[name := if decide (name = "variant") then AStr variant
                     else if decide (name = "batch_size") then AInt batch_size
                     else AFixture name]> args)
        ∅ (params t).

Definition invoke (t : test_function) (variant : string) (batch_size : Z) : call :=
  body t (test_args t variant batch_size).

(** The property every test function is said to have: the three
    fixtures in its signature, and a call of its runner that passes
    the batch size on. *)
Definition receives_three_fixtures (t : test_function) : Prop :=
  "clear_pybuda" ∈ params t ∧ "test_device" ∈ params t ∧ "batch_size" ∈ params t.

Definition passes_batch_size (t : test_function) : Prop :=
  ∀ variant batch_size,
    keywords (invoke t variant batch_size) = [("batch_size", AInt batch_size)].

Definition passes_variant (t : test_function) : Prop :=
  ∀ variant batch_size,
    positional (invoke t variant batch_size) =
      match parametrize t with Some _ => [AStr variant] | None => [] end.

End Harness.

(* ===================================================================== *)
(** ** A concrete process and concrete collaborators *)
(* ===================================================================== *)

(** The compiler configuration of a process that has configured nothing. *)
Definition fresh_cfg : CompilerConfig :=
  {| enable_tm_cpu_fallback := false;
     enable_tvm_constant_prop := false;
     cpu_fallback_ops := {[ "embedding" ]};
     balancer_policy := "default";
     default_df_override := None;
     enable_tvm_cpu_fallback := true;
     default_dram_parameters := None;
     input_queues_on_host := true;
     amp_level := None |}.

Definition fresh_process : process :=
  {| environ := ∅; compiler_cfg := fresh_cfg; events := []; stdout := [] |}.

Definition set_amp_level (n : nat) (c : CompilerConfig) : CompilerConfig :=
  {| enable_tm_cpu_fallback := enable_tm_cpu_fallback c;
     enable_tvm_constant_prop := enable_tvm_constant_prop c;
     cpu_fallback_ops := cpu_fallback_ops c;
     balancer_policy := balancer_policy c;
     default_df_override := default_df_override c;
     enable_tvm_cpu_fallback := enable_tvm_cpu_fallback c;
     default_dram_parameters := default_dram_parameters c;
     input_queues_on_host := input_queues_on_host c;
     amp_level := Some n |}.

(** The eighteen labels of [xrv.datasets.default_pathologies]. *)
Definition xrv_pathologies : list string :=
  [ "Atelectasis"; "Consolidation"; "Infiltration"; "Pneumothorax"; "Edema";
    "Emphysema"; "Fibrosis"; "Effusion"; "Pneumonia"; "Pleural_Thickening";
    "Cardiomegaly"; "Nodule"; "Mass"; "Hernia"; "Lung Lesion"; "Fracture";
    "Lung Opacity"; "Enlarged Cardiomediastinum" ].

(** A classifier that scores every label 1/2: one row of eighteen scores
    per sample of the batch. *)
Definition half_classifier (inputs : list tensor) : result (list tensor) :=
  match inputs with
  | [t] => Ok [ {| shape := [dim0 t; 18]; data := replicate (dim0 t * 18) (1 # 2)%Q |} ]
  | _ => Raise (ExternalError "expected one input")
  end.

(** A centre crop and resize: as [XRayCenterCrop] unpacks the shape
    into three names, it raises [ValueError] on an array that does not
    have three dimensions; the result is one channel of [side] by
    [side] pixels, and the demo asks for a side of 224. *)
Definition resize_to (side : nat) (img : tensor) : result tensor :=
  match shape img with
  | [_; _; _] =>
      Ok {| shape := [1; side; side];
            data := replicate (side * side) (hd 0%Q (data img)) |}
  | _ :: _ :: _ :: _ :: _ => Raise (ValueError "too many values to unpack (expected 3)")
  | _ => Raise (ValueError "not enough values to unpack (expected 3)")
  end.

(** The normalization to about [-1024, 1024]: as [xrv.datasets.normalize]
    takes the maximum of the array first, it raises [ValueError] on an
    empty array and an exception on a value above [maxval]. *)
Definition scale_to_1024 (img : tensor) (maxval : Z) : result tensor :=
  match data img with
  | [] =>
      Raise (ValueError
               "zero-size array to reduction operation maximum which has no identity")
  | _ :: _ =>
      if forallb (fun x => Qle_bool x (inject_Z maxval)) (data img) then
        Ok {| shape := shape img;
              data := (fun x => (2 * (x / inject_Z maxval) - 1) * 1024)%Q <$> data img |}
      else Raise (ExternalError "max image value higher than expected bound")
  end.

Definition canned_answer : string := "Place the pasta in a large pot of water.".

(** A generator that answers every prompt with the same sentence, and
    that sentence with another one. *)
Definition canned_generator (prompt : string) : gmap string string :=
  {[ "generated_text" :=
       if decide (prompt = canned_answer) then "Cook the sauce first."
       else canned_answer ]}.

(** Collaborators with [devices] detected, a fetched image of shape
    [image_shape] whose pixels are all 128, and a resizer to [side]; the
    hub, the runtime and the generator always succeed. *)
Definition demo_world (devices : list BackendDevice) (image_shape : list nat)
    (side : nat) : World :=
  {| detect_available_devices := devices;
     fetch_image := fun _ =>
       Ok {| shape := image_shape; data := replicate (numel image_shape) (128 # 1)%Q |};
     xrv_normalize := scale_to_1024;
     xrv_transform := resize_to side;
     xrv_get_model := fun name => Ok name;
     default_pathologies := xrv_pathologies;
     run_inference := fun _ _ _ inputs => half_classifier inputs;
     enable_amp_light := set_amp_level 1;
     T5Config_from_pretrained := fun _ =>
       Ok ({[ "model_type" := CStr "t5"; "use_cache" := CBool true ]} : gmap string cfgval);
     AutoModel_from_pretrained := fun ckpt cfg =>
       Ok {| model_ckpt := ckpt; model_config := cfg; eval_mode := false |};
     AutoTokenizer_from_pretrained := fun ckpt => Ok ckpt;
     pybuda_pipeline := fun _ => Ok tt;
     text2text_generate := fun _ _ _ req =>
       Ok (canned_generator <$> prompts req) |}.

(* ===================================================================== *)
(** ** Properties named by the specification *)
(* ===================================================================== *)

(** A runner fails fast on a zero batch: a validation error, and no
    call has left the process. *)
Definition fails_fast_on_zero_batch (run : Z -> M unit) : Prop :=
  ∀ s, ∃ e,
    (run 0%Z s).1 = Raise e ∧
    is_validation_error e = true ∧
    events (run 0%Z s).2 = events s.

(** The two device presets of the DenseNet runner and the fallback
    setting, as properties of the state a configuration step leaves. *)
Definition applies_wormhole_preset (s : process) : Prop :=
  balancer_policy (compiler_cfg s) = "Ribbon" ∧
  default_df_override (compiler_cfg s) = Some Float16_b.

Definition applies_other_preset (s : process) : Prop :=
  balancer_policy (compiler_cfg s) = "CNN" ∧
  environ s !! "PYBUDA_PAD_SPARSE_MM" = Some "{25:32}".

Definition cpu_fallback_enabled (s : process) : Prop :=
  enable_tm_cpu_fallback (compiler_cfg s) = true ∨
  enable_tvm_cpu_fallback (compiler_cfg s) = true.

(** A configuration step is keyed on the first detected device: there
    are two presets, never both applied, the step never raises, it
    leaves the first preset when the first device is Wormhole_B0 and the
    second for any other first device, and with no device it leaves a
    CPU fallback enabled. *)
Definition keyed_on_first_device (configure : World -> M unit) : Prop :=
  ∃ preset_wormhole preset_other : process -> Prop,
    (∀ s, ¬ (preset_wormhole s ∧ preset_other s)) ∧
    ∀ w s,
      (configure w s).1 = Ok tt ∧
      match detect_available_devices w with
      | d :: _ =>
          if decide (d = Wormhole_B0) then preset_wormhole (configure w s).2
          else preset_other (configure w s).2
      | [] => cpu_fallback_enabled (configure w s).2
      end.

(** A run leaves no configuration behind. *)
Definition leaves_no_configuration (run : M unit) : Prop :=
  ∀ s, environ (run s).2 = environ s ∧ compiler_cfg (run s).2 = compiler_cfg s.

(** The inputs handed to compile and run, in the order of submission. *)
Definition submitted_tensors (evs : list event) : list (list tensor) :=
  omap (fun e => match e with EvRunInference _ i => Some i | _ => None end) evs.

Definition submitted_requests (evs : list event) : list gen_request :=
  omap (fun e => match e with EvGenerate _ r => Some r | _ => None end) evs.

Definition fetched_urls (evs : list event) : list string :=
  omap (fun e => match e with EvHttpGet u => Some u | _ => None end) evs.

(** The lines that the FLAN-T5 runner prints for one sample. *)
Definition sample_report (sample_id : nat) (generated : string) : list printed :=
  [ PrintStr ("Sample ID: " +:+ pretty sample_id);
    PrintStr ("Prefix text: " +:+ flan_prompt);
    PrintStr ("Generated text: " +:+ generated) ].



(** The environment variables that the FLAN-T5 runner sets. *)
Definition flan_environ : list (string * string) :=
  [ ("PYBUDA_DISABLE_STREAM_OUTPUT", "1");
    ("PYBUDA_PAD_OUTPUT_BUFFER", "1");
    ("TT_BACKEND_MULTI_THREADED_PUSH", "1");
    ("PYBUDA_DISABLE_DYNAMIC_DRAM", "1");
    ("PYBUDA_FORCE_SEQUENTIAL", "1");
    ("PYBUDA_NLP_MANUAL_TARGET", "30000");
    ("TT_BACKEND_DRAM_POLLING_FREQUENCY", "64") ].

(** The calls a DenseNet run has made, after device detection, when it
    reaches the report. *)
Definition densenet_calls (m : string) (bt : tensor) : list event :=
  [ EvHttpGet xray_url; EvGetModel densenet_model_name;
    EvRunInference (densenet_module m) [bt] ].

(** The lines that a FLAN-T5 run prints for the generated texts
    [texts], sample 0 first. *)
Definition flan_reports (texts : list string) : list printed :=
  concat (imap sample_report texts).

(** The collaborators [w] with a runtime that fails with [e]. *)
Definition with_runtime_fault (w : World) (e : exn) : World :=
  {| detect_available_devices := detect_available_devices w;
     fetch_image := fetch_image w;
     xrv_normalize := xrv_normalize w;
     xrv_transform := xrv_transform w;
     xrv_get_model := xrv_get_model w;
     default_pathologies := default_pathologies w;
     run_inference := fun _ _ _ _ => Raise e;
     enable_amp_light := enable_amp_light w;
     T5Config_from_pretrained := T5Config_from_pretrained w;
     AutoModel_from_pretrained := AutoModel_from_pretrained w;
     AutoTokenizer_from_pretrained := AutoTokenizer_from_pretrained w;
     pybuda_pipeline := pybuda_pipeline w;
     text2text_generate := text2text_generate w |}.

(** The collaborators [w] with a runtime that returns [out]. *)
Definition with_runtime_output (w : World) (out : list tensor) : World :=
  {| detect_available_devices := detect_available_devices w;
     fetch_image := fetch_image w;
     xrv_normalize := xrv_normalize w;
     xrv_transform := xrv_transform w;
     xrv_get_model := xrv_get_model w;
     default_pathologies := default_pathologies w;
     run_inference := fun _ _ _ _ => Ok out;
     enable_amp_light := enable_amp_light w;
     T5Config_from_pretrained := T5Config_from_pretrained w;
     AutoModel_from_pretrained := AutoModel_from_pretrained w;
     AutoTokenizer_from_pretrained := AutoTokenizer_from_pretrained w;
     pybuda_pipeline := pybuda_pipeline w;
     text2text_generate := text2text_generate w |}.

(** The collaborators [w] with a generator that returns [answer]. *)
Definition with_answer (w : World) (answer : result (list (gmap string string)))
  : World :=
  {| detect_available_devices := detect_available_devices w;
     fetch_image := fetch_image w;
     xrv_normalize := xrv_normalize w;
     xrv_transform := xrv_transform w;
     xrv_get_model := xrv_get_model w;
     default_pathologies := default_pathologies w;
     run_inference := run_inference w;
     enable_amp_light := enable_amp_light w;
     T5Config_from_pretrained := T5Config_from_pretrained w;
     AutoModel_from_pretrained := AutoModel_from_pretrained w;
     AutoTokenizer_from_pretrained := AutoTokenizer_from_pretrained w;
     pybuda_pipeline := pybuda_pipeline w;
     text2text_generate := fun _ _ _ _ => answer |}.



(** The collaborators [w] with a hub that has no configuration. *)
Definition with_hub_fault (w : World) (e : exn) : World :=
  {| detect_available_devices := detect_available_devices w;
     fetch_image := fetch_image w;
     xrv_normalize := xrv_normalize w;
     xrv_transform := xrv_transform w;
     xrv_get_model := xrv_get_model w;
     default_pathologies := default_pathologies w;
     run_inference := run_inference w;
     enable_amp_light := enable_amp_light w;
     T5Config_from_pretrained := fun _ => Raise e;
     AutoModel_from_pretrained := AutoModel_from_pretrained w;
     AutoTokenizer_from_pretrained := AutoTokenizer_from_pretrained w;
     pybuda_pipeline := pybuda_pipeline w;
     text2text_generate := text2text_generate w |}.

(** The image tensor of the demo collaborators with a resizer to 2:
    every pixel is the normalized value of 128. *)
Definition demo_img : tensor :=
  {| shape := [1; 1; 2; 2];
     data := replicate (2 * 2) ((2 * (128 / 255) - 1) * 1024)%Q |}.

(** A process started with PYBUDA_N300_DATA_PARALLEL set to "1". *)
Definition data_parallel_process : process :=
  {| environ := {[ data_parallel_flag := "1" ]};
     compiler_cfg := fresh_cfg; events := []; stdout := [] |}.



(** The two lines printed for a sample before its answer is read. *)
Definition sample_header (sample_id : nat) : list printed :=
  [ PrintStr ("Sample ID: " +:+ pretty sample_id);
    PrintStr ("Prefix text: " +:+ flan_prompt) ].

(* ===================================================================== *)
(** ** Facts about arrays *)
(* ===================================================================== *)

Lemma chunks_length {A} (k n : nat) (l : list A) : length (chunks k n l) = n.
Proof.
  revert l. induction n as [|n IH]; intros l; simpl; [reflexivity|].
  by rewrite IH.
Qed.

Lemma rows_length (t : tensor) (vs : list tensor) :
  rows t = Ok vs -> length vs = dim0 t.
Proof.
  unfold rows, dim0. destruct (shape t) as [|d tl]; [discriminate|].
  intros [= <-]. by rewrite length_fmap, chunks_length.
Qed.

Lemma sum_list_replicate (n d : nat) : sum_list (replicate n d) = n * d.
Proof. induction n as [|n IH]; simpl; [reflexivity|]. by rewrite IH. Qed.

Lemma forallb_replicate {A} (f : A -> bool) (n : nat) (x : A) :
  f x = true -> forallb f (replicate n x) = true.
Proof. intros Hx. induction n as [|n IH]; simpl; [reflexivity|]. by rewrite Hx, IH. Qed.

(** Concatenating [n >= 1] copies of a tensor multiplies dimension 0. *)
Lemma torch_cat_replicate (n d : nat) (tl : list nat) (t : tensor) :
  0 < n ->
  shape t = d :: tl ->
  torch_cat (replicate n t) =
    Ok {| shape := n * d :: tl; data := concat (replicate n (data t)) |}.
Proof.
  intros Hn Hsh. destruct n as [|n]; [lia|].
  unfold torch_cat. cbn [replicate]. rewrite Hsh.
  change (t :: replicate n t) with (replicate (S n) t).
  rewrite forallb_replicate.
  - rewrite !fmap_replicate, sum_list_replicate. unfold dim0. by rewrite Hsh.
  - unfold tail_shape_is. rewrite Hsh. by apply bool_decide_eq_true.
Qed.

Lemma torch_cat_empty : is_ok (torch_cat []) = false.
Proof. reflexivity. Qed.

Lemma new_axis_2d_low_rank (a : tensor) :
  rank a < 2 -> new_axis_2d a = Raise (IndexError "too many indices for array").
Proof.
  unfold rank, new_axis_2d. destruct (shape a) as [|? [|? ?]]; simpl; intros; [done|done|lia].
Qed.

(* ===================================================================== *)
(** ** Facts about the label mapping *)
(* ===================================================================== *)

Lemma dict_of_pairs_foldl_dom {A} (kvs : list (string * A)) (d : gmap string A) :
  dom (foldl (fun d kv => <[kv.1 := kv.2]> d) d kvs) = dom d ∪ list_to_set kvs.*1.
Proof.
  revert d. induction kvs as [|[k v] kvs IH]; intros d; simpl.
  - symmetry. apply (right_id_L ∅ (∪)).
  - rewrite IH, dom_insert_L. simpl.
    rewrite (comm_L (∪) {[k]} (dom d)). by rewrite (assoc_L (∪)).
Qed.

Lemma dict_of_pairs_dom {A} (kvs : list (string * A)) :
  dom (dict_of_pairs kvs) = list_to_set kvs.*1.
Proof.
  unfold dict_of_pairs. rewrite dict_of_pairs_foldl_dom, dom_empty_L.
  apply (left_id_L ∅ (∪)).
Qed.

Lemma fst_zip_take {A B} (l : list A) (k : list B) :
  (zip l k).*1 = take (length k) l.
Proof.
  revert k. induction l as [|a l IH]; intros [|b k]; simpl; try reflexivity.
  by rewrite IH.
Qed.

(** The keys of the printed mapping: as many labels as output [0] has
    slices along dimension 0. *)
Lemma postprocess_dom (pathologies : list string) (output : list tensor)
    (o0 : tensor) (preds : gmap string tensor) :
  output !! 0 = Some o0 ->
  postprocess pathologies output = Ok preds ->
  dom preds = list_to_set (take (dim0 o0) pathologies).
Proof.
  intros H0. unfold postprocess, list_index. rewrite H0.
  destruct (rows o0) as [vs|e] eqn:Hrows; [|discriminate].
  intros [= <-]. rewrite dict_of_pairs_dom, fst_zip_take.
  by rewrite (rows_length _ _ Hrows).
Qed.

Lemma postprocess_size (pathologies : list string) (output : list tensor)
    (o0 : tensor) (preds : gmap string tensor) :
  NoDup pathologies ->
  output !! 0 = Some o0 ->
  postprocess pathologies output = Ok preds ->
  size preds = min (dim0 o0) (length pathologies).
Proof.
  intros Hnd H0 Hp.
  rewrite <- size_dom, (postprocess_dom _ _ _ _ H0 Hp).
  rewrite size_list_to_set by (eapply sublist_NoDup; [exact Hnd | apply sublist_take]).
  by rewrite length_take.
Qed.

(* ===================================================================== *)
(** ** Facts about the DenseNet runner *)
(* ===================================================================== *)

Ltac run_unfold :=
  unfold bind, ret, raise, lift, log, print, modify, set_cfg, set_environ,
    get_state, environ_get in *.

Lemma log_state (e : event) (s : process) :
  (log e s).1 = Ok tt ∧
  environ (log e s).2 = environ s ∧
  compiler_cfg (log e s).2 = compiler_cfg s ∧
  events (log e s).2 = events s ++ [e] ∧
  stdout (log e s).2 = stdout s.
Proof. done. Qed.

Lemma log_events (e : event) (s : process) : events (log e s).2 = events s ++ [e].
Proof. reflexivity. Qed.

Lemma log_environ (e : event) (s : process) : environ (log e s).2 = environ s.
Proof. reflexivity. Qed.

Lemma log_compiler_cfg (e : event) (s : process) :
  compiler_cfg (log e s).2 = compiler_cfg s.
Proof. reflexivity. Qed.

Lemma log_stdout (e : event) (s : process) : stdout (log e s).2 = stdout s.
Proof. reflexivity. Qed.

Lemma densenet_configure_ok (w : World) (s : process) :
  (densenet_configure w s).1 = Ok tt.
Proof.
  unfold densenet_configure. run_unfold. simpl.
  destruct (detect_available_devices w) as [|d ds]; [reflexivity|].
  destruct (decide (d = Wormhole_B0)); reflexivity.
Qed.

Lemma densenet_configure_events (w : World) (s : process) :
  events (densenet_configure w s).2 = events s ++ [EvDetectDevices] ∧
  stdout (densenet_configure w s).2 = stdout s.
Proof.
  unfold densenet_configure. run_unfold. simpl.
  destruct (detect_available_devices w) as [|d ds]; [done|].
  destruct (decide (d = Wormhole_B0)); done.
Qed.

(** The outcome of [get_input_img], statement by statement. *)
Lemma get_input_img_frame (w : World) (s : process) :
  environ (get_input_img w s).2 = environ s ∧
  compiler_cfg (get_input_img w s).2 = compiler_cfg s ∧
  events (get_input_img w s).2 = events s ++ [EvHttpGet xray_url].
Proof.
  unfold get_input_img. run_unfold. simpl.
  destruct (fetch_image w xray_url) as [raw|e]; [|done]. simpl.
  destruct (xrv_normalize w raw 255) as [img|e]; [|done]. simpl.
  destruct (Nat.ltb 2 (rank img)); simpl.
  - destruct (index_axis2_first img) as [img'|e]; [|done]. simpl.
    destruct (Nat.ltb (rank img') 2); simpl;
      (destruct (new_axis_2d img') as [c|e]; [|done]); simpl;
      (destruct (xrv_transform w c) as [t|e]; done).
  - destruct (Nat.ltb (rank img) 2); simpl;
      (destruct (new_axis_2d img) as [c|e]; [|done]); simpl;
      (destruct (xrv_transform w c) as [t|e]; done).
Qed.

(** The image tensor that [get_input_img] returns has a leading
    dimension of size 1, the one [unsqueeze(0)] adds. *)
Lemma get_input_img_shape (w : World) (s s' : process) (img : tensor) :
  get_input_img w s = (Ok img, s') -> ∃ sh, shape img = 1 :: sh.
Proof.
  unfold get_input_img. run_unfold. simpl.
  destruct (fetch_image w xray_url) as [raw|e]; [|done]. simpl.
  destruct (xrv_normalize w raw 255) as [a|e]; [|done]. simpl.
  destruct (Nat.ltb 2 (rank a)); simpl.
  - destruct (index_axis2_first a) as [a'|e]; [|done]. simpl.
    destruct (Nat.ltb (rank a') 2); simpl;
      (destruct (new_axis_2d a') as [c|e]; [|done]); simpl;
      (destruct (xrv_transform w c) as [t|e]; [|done]);
      intros [= <- _]; by eexists.
  - destruct (Nat.ltb (rank a) 2); simpl;
      (destruct (new_axis_2d a) as [c|e]; [|done]); simpl;
      (destruct (xrv_transform w c) as [t|e]; [|done]);
      intros [= <- _]; by eexists.
Qed.

(** A fetched image of rank below two: the message is printed and the
    next statement, the indexing that adds the colour channel, raises. *)
Lemma get_input_img_low_rank (w : World) (s : process) (raw img : tensor) :
  fetch_image w xray_url = Ok raw ->
  xrv_normalize w raw 255 = Ok img ->
  rank img < 2 ->
  get_input_img w s =
    (Raise (IndexError "too many indices for array"),
     {| environ := environ s;
        compiler_cfg := compiler_cfg s;
        events := events s ++ [EvHttpGet xray_url];
        stdout := stdout s ++ [PrintStr rank_error_message] |}).
Proof.
  intros Hf Hn Hr. unfold get_input_img. run_unfold. simpl.
  rewrite Hf. simpl. rewrite Hn. simpl.
  destruct (Nat.ltb_spec 2 (rank img)) as [Hlt|_]; [lia|]. simpl.
  destruct (Nat.ltb_spec (rank img) 2) as [_|Hge]; [|lia]. simpl.
  by rewrite (new_axis_2d_low_rank _ Hr).
Qed.

(** The runner, stage by stage.  The runtime sees the environment and
    the compiler configuration that the configuration step left. *)
Lemma run_densenet_stages (w : World) (batch_size : Z) (s : process) :
  run_densenet_121_hf_xray_pytorch w batch_size s =
    match get_input_img w (densenet_configure w s).2 with
    | (Raise e, s2) => (Raise e, s2)
    | (Ok img, s2) =>
        match torch_cat (replicate (Z.to_nat batch_size) img) with
        | Raise e => (Raise e, s2)
        | Ok bt =>
            let s3 := (log (EvGetModel densenet_model_name) s2).2 in
            match xrv_get_model w densenet_model_name with
            | Raise e => (Raise e, s3)
            | Ok m =>
                let s4 := (log (EvRunInference (densenet_module m) [bt]) s3).2 in
                match run_inference w (environ (densenet_configure w s).2)
                        (compiler_cfg (densenet_configure w s).2)
                        (densenet_module m) [bt] with
                | Raise e => (Raise e, s4)
                | Ok out => densenet_report w out s4
                end
            end
        end
    end.
Proof.
  unfold run_densenet_121_hf_xray_pytorch.
  unfold bind at 1.
  pose proof (densenet_configure_ok w s) as Hok.
  destruct (get_input_img_frame w (densenet_configure w s).2) as (He & Hc & _).
  destruct (densenet_configure w s) as [r s1]. simpl in Hok. subst r.
  cbn [fst snd] in *.
  unfold bind at 1.
  destruct (get_input_img w s1) as [[img|e] s2]; [|reflexivity].
  cbn [fst snd] in *.
  unfold bind at 1. unfold lift at 1.
  destruct (torch_cat (replicate (Z.to_nat batch_size) img)) as [bt|e]; [|reflexivity].
  unfold bind at 1. unfold log at 1, modify at 1.
  unfold bind at 1. unfold lift at 1.
  destruct (xrv_get_model w densenet_model_name) as [m|e]; [|reflexivity].
  unfold bind at 1. unfold log at 1, modify at 1.
  unfold bind at 1. unfold get_state at 1.
  unfold bind at 1. unfold lift at 1.
  cbn [environ compiler_cfg]. rewrite <- He, <- Hc.
  destruct (run_inference w _ _ _ _) as [out|e]; reflexivity.
Qed.

(** What the report does to the state. *)
Lemma densenet_report_frame (w : World) (output : list tensor) (s : process) :
  environ (densenet_report w output s).2 = environ s ∧
  compiler_cfg (densenet_report w output s).2 = compiler_cfg s ∧
  events (densenet_report w output s).2 = events s.
Proof.
  unfold densenet_report, densenet_print_preds. run_unfold. simpl.
  destruct (combine_outputs _ output) as [o|e]; [|done]. simpl.
  destruct (postprocess _ o) as [p|e]; done.
Qed.

(** After the configuration step a run changes neither the environment
    nor the compiler configuration. *)
Lemma run_densenet_frame (w : World) (batch_size : Z) (s : process) :
  environ (run_densenet_121_hf_xray_pytorch w batch_size s).2 =
    environ (densenet_configure w s).2 ∧
  compiler_cfg (run_densenet_121_hf_xray_pytorch w batch_size s).2 =
    compiler_cfg (densenet_configure w s).2.
Proof.
  rewrite run_densenet_stages.
  destruct (get_input_img_frame w (densenet_configure w s).2) as (He & Hc & _).
  destruct (get_input_img w (densenet_configure w s).2) as [[img|e] s2];
    simpl in He, Hc; [|done].
  destruct (torch_cat _) as [bt|e]; [|done].
  destruct (xrv_get_model w densenet_model_name) as [m|e]; [|done].
  cbv zeta.
  destruct (run_inference w _ _ _ _) as [out|e]; [|done].
  destruct (densenet_report_frame w out
              (log (EvRunInference (densenet_module m) [bt])
                 (log (EvGetModel densenet_model_name) s2).2).2) as (He' & Hc' & _).
  rewrite He', Hc'. done.
Qed.

Lemma emit_nil (s : process) : emit s [] [] = s.
Proof. destruct s. unfold emit. simpl. by rewrite !app_nil_r. Qed.

Lemma emit_emit (s : process) (e1 e2 : list event) (o1 o2 : list printed) :
  emit (emit s e1 o1) e2 o2 = emit s (e1 ++ e2) (o1 ++ o2).
Proof. unfold emit. simpl. by rewrite !app_assoc. Qed.

(** [get_input_img] reads nothing of the process: its value and its
    prints are the same from every state. *)
Lemma get_input_img_uniform (w : World) :
  ∃ r out, ∀ s, get_input_img w s = (r, emit s [EvHttpGet xray_url] out).
Proof.
  unfold get_input_img. run_unfold. unfold emit. simpl.
  destruct (fetch_image w xray_url) as [raw|e]; simpl;
    [|exists (Raise e), []; intros s; by rewrite app_nil_r].
  destruct (xrv_normalize w raw 255) as [a|e]; simpl;
    [|exists (Raise e), []; intros s; by rewrite app_nil_r].
  destruct (Nat.ltb 2 (rank a)); simpl.
  - destruct (index_axis2_first a) as [a'|e]; simpl;
      [|exists (Raise e), []; intros s; by rewrite app_nil_r].
    destruct (Nat.ltb (rank a') 2); simpl;
      (destruct (new_axis_2d a') as [c|e]; simpl;
       [destruct (xrv_transform w c) as [t|e]; simpl|]);
      eexists _, _; intros s; try reflexivity;
      try (instantiate (1 := []); by rewrite app_nil_r).
  - destruct (Nat.ltb (rank a) 2); simpl;
      (destruct (new_axis_2d a) as [c|e]; simpl;
       [destruct (xrv_transform w c) as [t|e]; simpl|]);
      eexists _, _; intros s; try reflexivity;
      try (instantiate (1 := []); by rewrite app_nil_r).
Qed.

(** The report reads the environment only. *)
Lemma densenet_report_uniform (w : World) (output : list tensor)
    (env : gmap string string) :
  ∃ r out, ∀ s, environ s = env -> densenet_report w output s = (r, emit s [] out).
Proof.
  unfold densenet_report, densenet_print_preds. run_unfold. unfold emit. simpl.
  destruct (combine_outputs (default "0" (env !! data_parallel_flag)) output)
    as [o|e] eqn:Hc.
  - destruct (postprocess (default_pathologies w) o) as [p|e] eqn:Hp.
    + exists (Ok tt), [PrintDict p]. intros s <-. rewrite Hc. simpl. rewrite Hp. simpl.
      by rewrite app_nil_r.
    + exists (Raise e), []. intros s <-. rewrite Hc. simpl. rewrite Hp. simpl.
      destruct s; simpl; by rewrite !app_nil_r.
  - exists (Raise e), []. intros s <-. rewrite Hc. simpl.
    destruct s; simpl; by rewrite !app_nil_r.
Qed.

(** A run is determined by the environment and the compiler
    configuration that the configuration step leaves. *)
Lemma run_densenet_uniform (w : World) (batch_size : Z)
    (env : gmap string string) (c : CompilerConfig) :
  ∃ r evs out, ∀ s,
    environ (densenet_configure w s).2 = env ->
    compiler_cfg (densenet_configure w s).2 = c ->
    run_densenet_121_hf_xray_pytorch w batch_size s =
      (r, emit (densenet_configure w s).2 evs out).
Proof.
  destruct (get_input_img_uniform w) as (r0 & out0 & H0).
  destruct r0 as [img|e].
  2:{ exists (Raise e), [EvHttpGet xray_url], out0. intros s _ _.
      by rewrite run_densenet_stages, H0. }
  destruct (torch_cat (replicate (Z.to_nat batch_size) img)) as [bt|e] eqn:Hcat.
  2:{ exists (Raise e), [EvHttpGet xray_url], out0. intros s _ _.
      by rewrite run_densenet_stages, H0, Hcat. }
  destruct (xrv_get_model w densenet_model_name) as [m|e] eqn:Hm.
  2:{ exists (Raise e), [EvHttpGet xray_url; EvGetModel densenet_model_name], out0.
      intros s _ _. rewrite run_densenet_stages, H0, Hcat, Hm.
      unfold log, modify, emit. simpl. by rewrite <- !app_assoc. }
  destruct (run_inference w env c (densenet_module m) [bt]) as [o|e] eqn:Hrun.
  2:{ exists (Raise e),
        [EvHttpGet xray_url; EvGetModel densenet_model_name;
         EvRunInference (densenet_module m) [bt]], out0.
      intros s He Hc. rewrite run_densenet_stages, H0, Hcat, Hm.
      unfold log, modify, emit. simpl. rewrite He, Hc, Hrun.
      by rewrite <- !app_assoc. }
  destruct (densenet_report_uniform w o env) as (r & out & Hrep).
  exists r,
    [EvHttpGet xray_url; EvGetModel densenet_model_name;
     EvRunInference (densenet_module m) [bt]], (out0 ++ out).
  intros s He Hc. rewrite run_densenet_stages, H0, Hcat, Hm.
  unfold log, modify. simpl. rewrite He, Hc, Hrun.
  rewrite Hrep by (simpl; first [exact He | reflexivity]).
  unfold emit. simpl. rewrite He, Hc, app_nil_r. by rewrite <- !app_assoc.
Qed.

(** The configuration step reads the environment and the compiler
    configuration only, and running it a second time changes nothing. *)
Lemma densenet_configure_determined (w : World) (s s' : process) :
  environ s = environ s' ->
  compiler_cfg s = compiler_cfg s' ->
  environ (densenet_configure w s).2 = environ (densenet_configure w s').2 ∧
  compiler_cfg (densenet_configure w s).2 = compiler_cfg (densenet_configure w s').2.
Proof.
  intros He Hc. unfold densenet_configure. run_unfold. simpl.
  destruct (detect_available_devices w) as [|d ds]; simpl.
  - by rewrite He, Hc.
  - destruct (decide (d = Wormhole_B0)); simpl; by rewrite He, Hc.
Qed.

Lemma CompilerConfig_ext (c1 c2 : CompilerConfig) :
  enable_tm_cpu_fallback c1 = enable_tm_cpu_fallback c2 ->
  enable_tvm_constant_prop c1 = enable_tvm_constant_prop c2 ->
  cpu_fallback_ops c1 = cpu_fallback_ops c2 ->
  balancer_policy c1 = balancer_policy c2 ->
  default_df_override c1 = default_df_override c2 ->
  enable_tvm_cpu_fallback c1 = enable_tvm_cpu_fallback c2 ->
  default_dram_parameters c1 = default_dram_parameters c2 ->
  input_queues_on_host c1 = input_queues_on_host c2 ->
  amp_level c1 = amp_level c2 ->
  c1 = c2.
Proof.
  destruct c1, c2. cbn. intros. subst. reflexivity.
Qed.

(** Reduce the projections of a chain of attribute assignments. *)
Ltac cfg_fields :=
  lazy beta iota delta
    [set_enable_tm_cpu_fallback set_enable_tvm_constant_prop add_cpu_fallback_op
     set_balancer_policy set_default_df_override set_enable_tvm_cpu_fallback
     set_default_dram_parameters set_input_queues_on_host
     enable_tm_cpu_fallback enable_tvm_constant_prop cpu_fallback_ops
     balancer_policy default_df_override enable_tvm_cpu_fallback
     default_dram_parameters input_queues_on_host amp_level].

(** The step acts on the environment and on the compiler configuration
    separately, and by idempotent functions. *)
Lemma densenet_configure_functions (w : World) :
  ∃ (fe : gmap string string -> gmap string string)
    (fc : CompilerConfig -> CompilerConfig),
    (∀ s, environ (densenet_configure w s).2 = fe (environ s) ∧
          compiler_cfg (densenet_configure w s).2 = fc (compiler_cfg s)) ∧
    (∀ e, fe (fe e) = fe e) ∧
    (∀ c, fc (fc c) = fc c).
Proof.
  assert (Hops : ∀ (op : string) (ops : gset string),
            {[ op ]} ∪ ({[ op ]} ∪ ops) = {[ op ]} ∪ ops).
  { intros op ops. rewrite (assoc_L (∪)). by rewrite (idemp_L (∪) {[ op ]}). }
  unfold densenet_configure. run_unfold.
  destruct (detect_available_devices w) as [|d ds];
    [|destruct (decide (d = Wormhole_B0))].
  - exists (fun e => <["PYBUDA_DISABLE_CONSTANT_FOLDING" := "1"]> e),
      (fun c => add_cpu_fallback_op "adv_index"
                  (set_enable_tvm_constant_prop true
                     (set_enable_tm_cpu_fallback true c))).
    split; [intros s; split; reflexivity|].
    split; [intros env; apply insert_insert_eq|].
    intros c. apply CompilerConfig_ext; cfg_fields; try reflexivity. apply Hops.
  - exists (fun e => <["PYBUDA_DISABLE_CONSTANT_FOLDING" := "1"]> e),
      (fun c => set_default_df_override Float16_b
                  (set_balancer_policy "Ribbon"
                     (add_cpu_fallback_op "adv_index"
                        (set_enable_tvm_constant_prop true
                           (set_enable_tm_cpu_fallback true c))))).
    split; [intros s; split; reflexivity|].
    split; [intros env; apply insert_insert_eq|].
    intros c. apply CompilerConfig_ext; cfg_fields; try reflexivity. apply Hops.
  - exists (fun e => <["PYBUDA_PAD_SPARSE_MM" := "{25:32}"]>
                       (<["PYBUDA_DISABLE_CONSTANT_FOLDING" := "1"]> e)),
      (fun c => set_balancer_policy "CNN"
                  (add_cpu_fallback_op "adv_index"
                     (set_enable_tvm_constant_prop true
                        (set_enable_tm_cpu_fallback true c)))).
    split; [intros s; split; reflexivity|].
    split.
    + intros env. apply map_eq. intros k. rewrite !lookup_insert.
      repeat case_decide; congruence.
    + intros c. apply CompilerConfig_ext; cfg_fields; try reflexivity. apply Hops.
Qed.

Lemma densenet_configure_idem (w : World) (s : process) :
  environ (densenet_configure w (densenet_configure w s).2).2 =
    environ (densenet_configure w s).2 ∧
  compiler_cfg (densenet_configure w (densenet_configure w s).2).2 =
    compiler_cfg (densenet_configure w s).2.
Proof.
  destruct (densenet_configure_functions w) as (fe & fc & Hf & Hie & Hic).
  destruct (Hf (densenet_configure w s).2) as [-> ->].
  destruct (Hf s) as [-> ->]. by rewrite Hie, Hic.
Qed.

(** The calls of a run that gets as far as the model load. *)
Lemma run_densenet_events (w : World) (batch_size : Z) (s s2 : process)
    (img bt : tensor) (m : string) :
  get_input_img w (densenet_configure w s).2 = (Ok img, s2) ->
  torch_cat (replicate (Z.to_nat batch_size) img) = Ok bt ->
  xrv_get_model w densenet_model_name = Ok m ->
  events (run_densenet_121_hf_xray_pytorch w batch_size s).2 =
    events s ++ [EvDetectDevices; EvHttpGet xray_url;
                 EvGetModel densenet_model_name;
                 EvRunInference (densenet_module m) [bt]].
Proof.
  intros Hg Hcat Hm.
  destruct (get_input_img_frame w (densenet_configure w s).2) as (_ & _ & Hev).
  destruct (densenet_configure_events w s) as [Hev0 _].
  rewrite run_densenet_stages, Hg, Hcat, Hm. rewrite Hg in Hev. simpl in Hev.
  cbv zeta.
  destruct (run_inference w _ _ _ _) as [out|e].
  - destruct (densenet_report_frame w out
                (log (EvRunInference (densenet_module m) [bt])
                   (log (EvGetModel densenet_model_name) s2).2).2) as (_ & _ & ->).
    unfold log, modify. simpl. rewrite Hev, Hev0. by rewrite <- !app_assoc.
  - unfold log, modify. simpl. rewrite Hev, Hev0. by rewrite <- !app_assoc.
Qed.

(* ===================================================================== *)
(** ** Facts about the FLAN-T5 runner *)
(* ===================================================================== *)

Lemma flan_configure_ok (w : World) (s : process) :
  (flan_configure w s).1 = Ok tt ∧
  events (flan_configure w s).2 = events s ∧
  stdout (flan_configure w s).2 = stdout s.
Proof. unfold flan_configure. run_unfold. cbn [fst snd events stdout]. done. Qed.

(** The step consults no device: two sets of collaborators with the
    same [enable_amp_light] give the same step. *)
Lemma flan_configure_device_independent (w w' : World) (s : process) :
  enable_amp_light w' = enable_amp_light w ->
  flan_configure w' s = flan_configure w s.
Proof. intros Hamp. unfold flan_configure. by rewrite Hamp. Qed.

(** The runner, stage by stage.  The generator sees the environment and
    the compiler configuration that the configuration step left. *)
Lemma run_flan_stages (w : World) (variant : string) (batch_size : Z) (s : process) :
  run_flan_t5_pybuda_pipeline w variant batch_size s =
    let s2 := (log (EvHubFetch "config" variant) (flan_configure w s).2).2 in
    match T5Config_from_pretrained w variant with
    | Raise e => (Raise e, s2)
    | Ok cd =>
        let s3 := (log (EvHubFetch "model" variant) s2).2 in
        match AutoModel_from_pretrained w variant (flan_config_dict cd) with
        | Raise e => (Raise e, s3)
        | Ok model =>
            let s4 := (log (EvHubFetch "tokenizer" variant) s3).2 in
            match AutoTokenizer_from_pretrained w variant with
            | Raise e => (Raise e, s4)
            | Ok tok =>
                let gen := flan_generator (with_eval model) tok batch_size in
                let prefix_text := replicate (Z.to_nat batch_size) flan_prompt in
                match pybuda_pipeline w gen with
                | Raise e => (Raise e, s4)
                | Ok _ =>
                    let s5 := (log (EvGenerate gen (flan_request prefix_text)) s4).2 in
                    match text2text_generate w (environ (flan_configure w s).2)
                            (compiler_cfg (flan_configure w s).2) gen
                            (flan_request prefix_text) with
                    | Raise e => (Raise e, s5)
                    | Ok answer =>
                        for_each (seq 0 (Z.to_nat batch_size))
                          (report_sample prefix_text answer) s5
                    end
                end
            end
        end
    end.
Proof.
  unfold run_flan_t5_pybuda_pipeline.
  unfold bind at 1.
  destruct (flan_configure_ok w s) as (Hok & _ & _).
  destruct (flan_configure w s) as [r s1]. cbn [fst snd] in *. subst r.
  unfold bind at 1. unfold log at 1, modify at 1.
  unfold bind at 1. unfold lift at 1.
  destruct (T5Config_from_pretrained w variant) as [cd|e]; [|reflexivity].
  unfold bind at 1. unfold log at 1, modify at 1.
  unfold bind at 1. unfold lift at 1.
  destruct (AutoModel_from_pretrained w variant _) as [model|e]; [|reflexivity].
  unfold bind at 1. unfold log at 1, modify at 1.
  unfold bind at 1. unfold lift at 1.
  destruct (AutoTokenizer_from_pretrained w variant) as [tok|e]; [|reflexivity].
  unfold bind at 1. unfold lift at 1.
  destruct (pybuda_pipeline w _) as [u|e]; [|reflexivity].
  unfold bind at 1. unfold log at 1, modify at 1.
  unfold bind at 1. unfold get_state at 1.
  unfold bind at 1. unfold lift at 1.
  cbn [environ compiler_cfg].
  destruct (text2text_generate w _ _ _ _) as [answer|e]; reflexivity.
Qed.

(** The report loop only prints. *)
Lemma report_sample_frame (prefix_text : list string)
    (answer : list (gmap string string)) (i : nat) (s : process) :
  environ (report_sample prefix_text answer i s).2 = environ s ∧
  compiler_cfg (report_sample prefix_text answer i s).2 = compiler_cfg s ∧
  events (report_sample prefix_text answer i s).2 = events s.
Proof.
  unfold report_sample. run_unfold. simpl.
  destruct (list_index prefix_text i) as [p|e]; [|done]. simpl.
  destruct (list_index answer i) as [a|e]; [|done]. simpl.
  destruct (dict_index a "generated_text") as [g|e]; done.
Qed.

Lemma for_each_report_frame (prefix_text : list string)
    (answer : list (gmap string string)) (ids : list nat) (s : process) :
  environ (for_each ids (report_sample prefix_text answer) s).2 = environ s ∧
  compiler_cfg (for_each ids (report_sample prefix_text answer) s).2 = compiler_cfg s ∧
  events (for_each ids (report_sample prefix_text answer) s).2 = events s.
Proof.
  revert s. induction ids as [|i ids IH]; intros s; [done|].
  cbn [for_each]. unfold bind.
  destruct (report_sample_frame prefix_text answer i s) as (He & Hc & Hev).
  destruct (report_sample prefix_text answer i s) as [[u|e] s']; simpl in *.
  - destruct (IH s') as (He' & Hc' & Hev'). by rewrite He', Hc', Hev'.
  - done.
Qed.

(** One sample whose answer carries a generated text. *)
Lemma report_sample_ok (prefix_text : list string)
    (answer : list (gmap string string)) (i : nat) (p g : string)
    (a : gmap string string) (s : process) :
  prefix_text !! i = Some p ->
  answer !! i = Some a ->
  a !! "generated_text" = Some g ->
  report_sample prefix_text answer i s =
    (Ok tt,
     emit s [] [ PrintStr ("Sample ID: " +:+ pretty i);
                 PrintStr ("Prefix text: " +:+ p);
                 PrintStr ("Generated text: " +:+ g) ]).
Proof.
  intros Hp Ha Hg. unfold report_sample, list_index, dict_index. run_unfold.
  simpl. rewrite Hp. simpl. rewrite Ha. simpl. rewrite Hg. simpl.
  unfold emit. simpl. by rewrite app_nil_r, <- !app_assoc.
Qed.

(** After the configuration step a FLAN-T5 run changes neither the
    environment nor the compiler configuration. *)
Lemma run_flan_frame (w : World) (variant : string) (batch_size : Z) (s : process) :
  environ (run_flan_t5_pybuda_pipeline w variant batch_size s).2 =
    environ (flan_configure w s).2 ∧
  compiler_cfg (run_flan_t5_pybuda_pipeline w variant batch_size s).2 =
    compiler_cfg (flan_configure w s).2.
Proof.
  rewrite run_flan_stages. cbv zeta.
  generalize (flan_configure w s).2. intros s1.
  destruct (T5Config_from_pretrained w variant) as [cd|e]; [|done].
  destruct (AutoModel_from_pretrained w variant _) as [model|e]; [|done].
  destruct (AutoTokenizer_from_pretrained w variant) as [tok|e]; [|done].
  destruct (pybuda_pipeline w _) as [u|e]; [|done].
  destruct (text2text_generate w _ _ _ _) as [answer|e]; [|done].
  match goal with
  | |- context [for_each ?ids ?f ?st] =>
      destruct (for_each_report_frame
                  (replicate (Z.to_nat batch_size) flan_prompt) answer ids st)
        as (He & Hc & _)
  end.
  rewrite He, Hc. done.
Qed.

(** The calls of a FLAN-T5 run whose hub fetches and generator
    construction succeed. *)
Lemma run_flan_events (w : World) (variant : string) (batch_size : Z) (s : process)
    (cd : gmap string cfgval) (model : hf_model) (tok : string) :
  T5Config_from_pretrained w variant = Ok cd ->
  AutoModel_from_pretrained w variant (flan_config_dict cd) = Ok model ->
  AutoTokenizer_from_pretrained w variant = Ok tok ->
  pybuda_pipeline w (flan_generator (with_eval model) tok batch_size) = Ok tt ->
  events (run_flan_t5_pybuda_pipeline w variant batch_size s).2 =
    events s ++
      [ EvHubFetch "config" variant; EvHubFetch "model" variant;
        EvHubFetch "tokenizer" variant;
        EvGenerate (flan_generator (with_eval model) tok batch_size)
          (flan_request (replicate (Z.to_nat batch_size) flan_prompt)) ].
Proof.
  intros Hc Hm Ht Hp.
  destruct (flan_configure_ok w s) as (_ & Hev & _).
  rewrite run_flan_stages. cbv zeta. rewrite Hc, Hm, Ht, Hp.
  revert Hev. generalize (flan_configure w s).2. intros s1 Hev.
  destruct (text2text_generate w _ _ _ _) as [answer|e].
  - match goal with
    | |- context [for_each ?ids ?f ?st] =>
        destruct (for_each_report_frame
                    (replicate (Z.to_nat batch_size) flan_prompt) answer ids st)
          as (_ & _ & ->)
    end.
    rewrite !log_events, Hev. by rewrite <- !app_assoc.
  - cbn [snd]. rewrite !log_events, Hev. by rewrite <- !app_assoc.
Qed.

Lemma submitted_tensors_app (l k : list event) :
  submitted_tensors (l ++ k) = submitted_tensors l ++ submitted_tensors k.
Proof. unfold submitted_tensors. apply omap_app. Qed.

Lemma submitted_requests_app (l k : list event) :
  submitted_requests (l ++ k) = submitted_requests l ++ submitted_requests k.
Proof. unfold submitted_requests. apply omap_app. Qed.

Lemma fetched_urls_app (l k : list event) :
  fetched_urls (l ++ k) = fetched_urls l ++ fetched_urls k.
Proof. unfold fetched_urls. apply omap_app. Qed.

(* ===================================================================== *)
(** ** The claims about the DenseNet-121 X-ray demo *)
(* ===================================================================== *)

(** C1, at the input batch_size = 1 with a classifier that returns one
    tensor of shape [1, 18]: the run succeeds and prints a mapping whose
    only key is the first label, bound to the whole row of eighteen
    scores.  The comprehension zips the labels with the slices of the
    output along dimension 0, which is the batch dimension. *)
Theorem xray_batch_one_has_one_key :
  let r := run_densenet_121_hf_xray_pytorch
             (demo_world [Wormhole_B0] [8; 8] 224) 1 fresh_process in
  r.1 = Ok tt ∧
  ∃ preds : gmap string tensor,
    stdout r.2 = [PrintDict preds] ∧
    dom preds = {[ "Atelectasis" ]} ∧
    size preds = 1 ∧
    length (default_pathologies (demo_world [Wormhole_B0] [8; 8] 224)) = 18 ∧
    preds !! "Atelectasis" = Some {| shape := [18]; data := replicate 18 (1 # 2)%Q |}.
Proof.
  cbv zeta. split; [by vm_compute|].
  exists {[ "Atelectasis" := {| shape := [18]; data := replicate 18 (1 # 2)%Q |} ]}.
  split; [by vm_compute|].
  split; [by rewrite dom_singleton_L|].
  split; [by rewrite map_size_singleton|].
  split; [reflexivity|].
  by rewrite lookup_singleton_eq.
Qed.

(** C3: for a batch size B >= 1 the DenseNet runner fetches one image
    and submits the concatenation of B copies of its tensor, whose
    dimension 0 is B; the FLAN-T5 runner submits a list of B copies of
    the prompt. *)
Theorem batch_dimension_is_batch_size (w : World) (batch_size : Z) (s : process) :
  (1 ≤ batch_size)%Z ->
  (∀ img s2,
     get_input_img w (densenet_configure w s).2 = (Ok img, s2) ->
     ∃ bt,
       torch_cat (replicate (Z.to_nat batch_size) img) = Ok bt ∧
       dim0 img = 1 ∧
       dim0 bt = Z.to_nat batch_size ∧
       data bt = concat (replicate (Z.to_nat batch_size) (data img)) ∧
       ∀ m, xrv_get_model w densenet_model_name = Ok m ->
         fetched_urls (events (run_densenet_121_hf_xray_pytorch w batch_size s).2) =
           fetched_urls (events s) ++ [xray_url] ∧
         submitted_tensors (events (run_densenet_121_hf_xray_pytorch w batch_size s).2) =
           submitted_tensors (events s) ++ [[bt]]) ∧
  (∀ variant cd model tok,
     T5Config_from_pretrained w variant = Ok cd ->
     AutoModel_from_pretrained w variant (flan_config_dict cd) = Ok model ->
     AutoTokenizer_from_pretrained w variant = Ok tok ->
     pybuda_pipeline w (flan_generator (with_eval model) tok batch_size) = Ok tt ->
     ∃ req,
       submitted_requests (events (run_flan_t5_pybuda_pipeline w variant batch_size s).2) =
         submitted_requests (events s) ++ [req] ∧
       prompts req = replicate (Z.to_nat batch_size) flan_prompt ∧
       length (prompts req) = Z.to_nat batch_size).
Proof.
  intros HB. split.
  - intros img s2 Hg.
    destruct (get_input_img_shape _ _ _ _ Hg) as [sh Hsh].
    assert (Hcat := torch_cat_replicate (Z.to_nat batch_size) 1 sh img
                      ltac:(lia) Hsh).
    eexists. split; [exact Hcat|].
    split; [unfold dim0; by rewrite Hsh|].
    split; [unfold dim0; simpl; lia|].
    split; [reflexivity|].
    intros m Hm.
    rewrite (run_densenet_events _ _ _ _ _ _ _ Hg Hcat Hm).
    rewrite fetched_urls_app, submitted_tensors_app. done.
  - intros variant cd model tok Hc Hm Ht Hp.
    eexists. rewrite (run_flan_events _ _ _ _ _ _ _ Hc Hm Ht Hp).
    rewrite submitted_requests_app. split; [reflexivity|].
    split; [reflexivity|]. simpl. by rewrite length_replicate.
Qed.

Lemma batch_dimension_is_batch_size_witness :
  (1 ≤ 4)%Z ∧
  ∃ bt,
    torch_cat (replicate 4 {| shape := [1; 1; 2; 2];
                              data := replicate (2 * 2) ((2 * (128 / 255) - 1) * 1024)%Q |})
      = Ok bt ∧
    dim0 bt = 4.
Proof.
  split; [lia|].
  destruct (batch_dimension_is_batch_size (demo_world [Grayskull] [8; 8] 2) 4
              fresh_process ltac:(lia)) as [Hd _].
  destruct (Hd {| shape := [1; 1; 2; 2];
                  data := replicate (2 * 2) ((2 * (128 / 255) - 1) * 1024)%Q |}
               (emit (densenet_configure (demo_world [Grayskull] [8; 8] 2) fresh_process).2
                  [EvHttpGet xray_url] [])
               ltac:(vm_compute; reflexivity)) as (bt & Hcat & _ & Hdim & _).
  exists bt. split; [exact Hcat | exact Hdim].
Defined.

(** C4: when the fetched image has fewer than two dimensions the
    message is printed and the run ends there with the [IndexError] of
    the next statement; nothing is submitted to the runtime. *)
Theorem low_rank_image_is_fatal (w : World) (batch_size : Z) (s : process)
    (raw img : tensor) :
  fetch_image w xray_url = Ok raw ->
  xrv_normalize w raw 255 = Ok img ->
  rank img < 2 ->
  (run_densenet_121_hf_xray_pytorch w batch_size s).1 =
    Raise (IndexError "too many indices for array") ∧
  stdout (run_densenet_121_hf_xray_pytorch w batch_size s).2 =
    stdout s ++ [PrintStr rank_error_message] ∧
  events (run_densenet_121_hf_xray_pytorch w batch_size s).2 =
    events s ++ [EvDetectDevices; EvHttpGet xray_url] ∧
  submitted_tensors (events (run_densenet_121_hf_xray_pytorch w batch_size s).2) =
    submitted_tensors (events s).
Proof.
  intros Hf Hn Hr.
  destruct (densenet_configure_events w s) as [Hev Hout].
  rewrite run_densenet_stages.
  rewrite (get_input_img_low_rank _ _ _ _ Hf Hn Hr). simpl.
  rewrite Hev, Hout, <- app_assoc. simpl.
  repeat split; try reflexivity.
  rewrite submitted_tensors_app. simpl. by rewrite app_nil_r.
Qed.

Lemma low_rank_image_is_fatal_witness :
  (run_densenet_121_hf_xray_pytorch (demo_world [Grayskull] [8] 2) 1 fresh_process).1 =
    Raise (IndexError "too many indices for array") ∧
  stdout (run_densenet_121_hf_xray_pytorch (demo_world [Grayskull] [8] 2) 1 fresh_process).2 =
    [PrintStr rank_error_message].
Proof.
  destruct (low_rank_image_is_fatal (demo_world [Grayskull] [8] 2) 1 fresh_process
              {| shape := [8]; data := replicate 8 (128 # 1)%Q |}
              {| shape := [8];
                 data := (fun x => (2 * (x / inject_Z 255) - 1) * 1024)%Q
                           <$> replicate 8 (128 # 1)%Q |}
              ltac:(reflexivity) ltac:(reflexivity) ltac:(unfold rank; simpl; lia))
    as (Hr & Hout & _).
  split; [exact Hr | exact Hout].
Defined.

(** C10: the report combines the first two output tensors along
    dimension 0 exactly when PYBUDA_N300_DATA_PARALLEL is "1"; with any
    other value, or with the variable unset (default "0"), the output
    is postprocessed as it is.  The report is what the runner does with
    the value of the blocking [get()]. *)
Theorem data_parallel_outputs_combined (w : World) (output : list tensor) (s : process) :
  (environ s !! data_parallel_flag = Some "1" ->
   ∀ o0 o1 rest, output = o0 :: o1 :: rest ->
     combine_outputs "1" output =
       match torch_cat [o0; o1] with Ok c => Ok [c] | Raise e => Raise e end ∧
     densenet_report w output s =
       match torch_cat [o0; o1] with
       | Ok c => densenet_print_preds w [c] s
       | Raise e => (Raise e, s)
       end) ∧
  (environ s !! data_parallel_flag ≠ Some "1" ->
   combine_outputs (default "0" (environ s !! data_parallel_flag)) output = Ok output ∧
   densenet_report w output s = densenet_print_preds w output s) ∧
  (∀ batch_size s0 img s2 bt m,
     get_input_img w (densenet_configure w s0).2 = (Ok img, s2) ->
     torch_cat (replicate (Z.to_nat batch_size) img) = Ok bt ->
     xrv_get_model w densenet_model_name = Ok m ->
     s = emit s2 [EvGetModel densenet_model_name;
                  EvRunInference (densenet_module m) [bt]] [] ->
     run_inference w (environ s) (compiler_cfg s) (densenet_module m) [bt] = Ok output ->
     run_densenet_121_hf_xray_pytorch w batch_size s0 =
       densenet_report w output
         (log (EvRunInference (densenet_module m) [bt])
            (log (EvGetModel densenet_model_name) s2).2).2).
Proof.
  split; [|split].
  - intros Hflag o0 o1 rest ->.
    assert (Hc : combine_outputs "1" (o0 :: o1 :: rest) =
                 match torch_cat [o0; o1] with Ok c => Ok [c] | Raise e => Raise e end)
      by reflexivity.
    split; [exact Hc|].
    unfold densenet_report, bind, environ_get, lift. rewrite Hflag.
    change (default "0" (Some "1")) with "1". rewrite Hc.
    destruct (torch_cat [o0; o1]); reflexivity.
  - intros Hflag.
    assert (Hne : default "0" (environ s !! data_parallel_flag) ≠ "1").
    { destruct (environ s !! data_parallel_flag) as [v|] eqn:Hv; simpl.
      - intros ->. by apply Hflag.
      - discriminate. }
    assert (Hc : combine_outputs (default "0" (environ s !! data_parallel_flag)) output
                 = Ok output).
    { unfold combine_outputs. by destruct (decide _). }
    split; [exact Hc|].
    unfold densenet_report, bind, environ_get, lift. by rewrite Hc.
  - intros batch_size s0 img s2 bt m Hg Hcat Hm Hs Hrun.
    destruct (get_input_img_frame w (densenet_configure w s0).2) as (He & Hc & _).
    rewrite Hg in He, Hc. cbn [snd] in He, Hc.
    rewrite run_densenet_stages, Hg, Hcat, Hm. cbv zeta.
    subst s. unfold emit in Hrun. cbn [environ compiler_cfg] in Hrun.
    rewrite He, Hc in Hrun. by rewrite Hrun.
Qed.

Lemma data_parallel_outputs_combined_witness :
  densenet_report (demo_world [Wormhole_B0] [8; 8] 2)
    [ {| shape := [1; 18]; data := replicate 18 (1 # 2)%Q |};
      {| shape := [1; 18]; data := replicate 18 (1 # 4)%Q |} ]
    {| environ := {[ data_parallel_flag := "1" ]};
       compiler_cfg := fresh_cfg; events := []; stdout := [] |} =
  densenet_print_preds (demo_world [Wormhole_B0] [8; 8] 2)
    [ {| shape := [2; 18];
         data := replicate 18 (1 # 2)%Q ++ replicate 18 (1 # 4)%Q |} ]
    {| environ := {[ data_parallel_flag := "1" ]};
       compiler_cfg := fresh_cfg; events := []; stdout := [] |}.
Proof.
  destruct (data_parallel_outputs_combined (demo_world [Wormhole_B0] [8; 8] 2)
              [ {| shape := [1; 18]; data := replicate 18 (1 # 2)%Q |};
                {| shape := [1; 18]; data := replicate 18 (1 # 4)%Q |} ]
              {| environ := {[ data_parallel_flag := "1" ]};
                 compiler_cfg := fresh_cfg; events := []; stdout := [] |})
    as [Hon _].
  destruct (Hon ltac:(reflexivity) _ _ _ eq_refl) as [_ Hrep].
  exact Hrep.
Defined.

(* ===================================================================== *)
(** ** The claims about validation and configuration *)
(* ===================================================================== *)

(** C2 as stated fails: with batch_size = 0 the DenseNet runner has
    already detected devices and fetched the image when it stops, and
    the error is the [RuntimeError] of [torch.cat], not a validation
    error. *)
Lemma zero_batch_is_not_validated :
  ¬ fails_fast_on_zero_batch
      (run_densenet_121_hf_xray_pytorch (demo_world [Grayskull] [8; 8] 224)).
Proof.
  intros H. destruct (H fresh_process) as (e & He & Hv & _).
  vm_compute in He. injection He as <-. discriminate Hv.
Qed.

(** C2, amended: neither runner checks the batch size.  With
    batch_size = 0 the DenseNet runner detects devices and fetches the
    image, submits nothing, and when the image loads it stops in
    [torch.cat] on the empty list; the FLAN-T5 runner starts with its
    hub fetches, and when they and the generator succeed it submits an
    empty list of prompts and returns normally. *)
Theorem zero_batch_stops_after_io (w : World) (s : process) :
  (is_ok (run_densenet_121_hf_xray_pytorch w 0 s).1 = false ∧
   events (run_densenet_121_hf_xray_pytorch w 0 s).2 =
     events s ++ [EvDetectDevices; EvHttpGet xray_url] ∧
   (∀ img s2,
      get_input_img w (densenet_configure w s).2 = (Ok img, s2) ->
      (run_densenet_121_hf_xray_pytorch w 0 s).1 =
        Raise (RuntimeError "torch.cat(): expected a non-empty list of Tensors"))) ∧
  (∀ variant,
     (∃ evs, events (run_flan_t5_pybuda_pipeline w variant 0 s).2 =
               events s ++ EvHubFetch "config" variant :: evs) ∧
     (∀ cd model tok answer,
        T5Config_from_pretrained w variant = Ok cd ->
        AutoModel_from_pretrained w variant (flan_config_dict cd) = Ok model ->
        AutoTokenizer_from_pretrained w variant = Ok tok ->
        pybuda_pipeline w (flan_generator (with_eval model) tok 0) = Ok tt ->
        text2text_generate w (environ (flan_configure w s).2)
          (compiler_cfg (flan_configure w s).2)
          (flan_generator (with_eval model) tok 0) (flan_request []) = Ok answer ->
        (run_flan_t5_pybuda_pipeline w variant 0 s).1 = Ok tt ∧
        submitted_requests (events (run_flan_t5_pybuda_pipeline w variant 0 s).2) =
          submitted_requests (events s) ++ [flan_request []])).
Proof.
  split.
  - destruct (densenet_configure_events w s) as [Hev _].
    destruct (get_input_img_frame w (densenet_configure w s).2) as (_ & _ & Hev2).
    rewrite run_densenet_stages.
    destruct (get_input_img w (densenet_configure w s).2) as [[img|e] s2];
      simpl in Hev2 |- *; rewrite Hev2, Hev, <- app_assoc; simpl.
    + split; [reflexivity|]. split; [reflexivity|].
      intros img' s2' [= <- <-]. reflexivity.
    + split; [reflexivity|]. split; [reflexivity|].
      intros img' s2' [=].
  - intros variant. split.
    + destruct (flan_configure_ok w s) as (_ & Hev & _).
      rewrite run_flan_stages. cbv zeta.
      revert Hev. generalize (flan_configure w s).2. intros s1 Hev.
      destruct (T5Config_from_pretrained w variant) as [cd|e].
      2:{ exists []. cbn [snd]. by rewrite log_events, Hev. }
      destruct (AutoModel_from_pretrained w variant _) as [model|e].
      2:{ eexists. cbn [snd]. rewrite !log_events, Hev, <- !app_assoc. reflexivity. }
      destruct (AutoTokenizer_from_pretrained w variant) as [tok|e].
      2:{ eexists. cbn [snd]. rewrite !log_events, Hev, <- !app_assoc. reflexivity. }
      destruct (pybuda_pipeline w _) as [u|e].
      2:{ eexists. cbn [snd]. rewrite !log_events, Hev, <- !app_assoc. reflexivity. }
      destruct (text2text_generate w _ _ _ _) as [answer|e].
      * match goal with
        | |- context [for_each ?ids ?f ?st] =>
            destruct (for_each_report_frame
                        (replicate (Z.to_nat 0) flan_prompt) answer ids st)
              as (_ & _ & ->)
        end.
        eexists. rewrite !log_events, Hev, <- !app_assoc. reflexivity.
      * eexists. cbn [snd]. rewrite !log_events, Hev, <- !app_assoc. reflexivity.
    + intros cd model tok answer Hc Hm Ht Hp Hg.
      rewrite (run_flan_events _ _ _ _ _ _ _ Hc Hm Ht Hp).
      rewrite submitted_requests_app. split; [|reflexivity].
      rewrite run_flan_stages. cbv zeta. rewrite Hc, Hm, Ht, Hp.
      change (Z.to_nat 0) with 0. cbn [replicate seq for_each].
      by rewrite Hg.
Qed.

Lemma zero_batch_stops_after_io_witness :
  (run_densenet_121_hf_xray_pytorch (demo_world [Grayskull] [8; 8] 2) 0 fresh_process).1 =
    Raise (RuntimeError "torch.cat(): expected a non-empty list of Tensors") ∧
  (run_flan_t5_pybuda_pipeline (demo_world [Grayskull] [8; 8] 2)
     flan_default_variant 0 fresh_process).1 = Ok tt.
Proof.
  destruct (zero_batch_stops_after_io (demo_world [Grayskull] [8; 8] 2) fresh_process)
    as [(_ & _ & Hd) Hf].
  split.
  - apply (Hd {| shape := [1; 1; 2; 2];
                 data := replicate (2 * 2) ((2 * (128 / 255) - 1) * 1024)%Q |}
              (emit (densenet_configure (demo_world [Grayskull] [8; 8] 2) fresh_process).2
                 [EvHttpGet xray_url] [])).
    vm_compute. reflexivity.
  - destruct (Hf flan_default_variant) as [_ Hrun].
    apply (Hrun ({[ "model_type" := CStr "t5"; "use_cache" := CBool true ]})
                {| model_ckpt := flan_default_variant;
                   model_config :=
                     flan_config_dict
                       ({[ "model_type" := CStr "t5"; "use_cache" := CBool true ]});
                   eval_mode := false |}
                flan_default_variant []);
      reflexivity.
Defined.

(** C5 as stated fails: the FLAN-T5 configuration step is not keyed on
    the detected device; it leaves the same state whether a Wormhole_B0
    or a Grayskull is detected, so no two exclusive presets tell the
    two apart. *)
Lemma flan_configuration_ignores_device :
  ¬ keyed_on_first_device flan_configure.
Proof.
  intros (pw & po & Hex & H).
  destruct (H (demo_world [Wormhole_B0] [8; 8] 224) fresh_process) as [_ Hw].
  destruct (H (demo_world [Grayskull] [8; 8] 224) fresh_process) as [_ Ho].
  cbn [detect_available_devices demo_world] in Hw, Ho.
  destruct (decide (Wormhole_B0 = Wormhole_B0)) as [_|Hne]; [|by apply Hne].
  destruct (decide (Grayskull = Wormhole_B0)) as [Heq|_]; [discriminate Heq|].
  rewrite (flan_configure_device_independent
             (demo_world [Grayskull] [8; 8] 224) (demo_world [Wormhole_B0] [8; 8] 224)
             fresh_process eq_refl) in Hw.
  apply (Hex (flan_configure (demo_world [Grayskull] [8; 8] 224) fresh_process).2).
  split; [exact Hw | exact Ho].
Qed.

(** The DenseNet configuration step is keyed on the first device. *)
Lemma densenet_configuration_keyed_on_device :
  keyed_on_first_device densenet_configure.
Proof.
  exists applies_wormhole_preset, applies_other_preset. split.
  - intros s [[Hr _] [Hc _]]. rewrite Hr in Hc. discriminate Hc.
  - intros w s. split; [apply densenet_configure_ok|].
    unfold applies_wormhole_preset, applies_other_preset, cpu_fallback_enabled.
    unfold densenet_configure. run_unfold. simpl.
    destruct (detect_available_devices w) as [|d ds].
    + left. reflexivity.
    + destruct (decide (d = Wormhole_B0)); simpl.
      * split; reflexivity.
      * split; [reflexivity|]. by rewrite lookup_insert_eq.
Qed.

(** C5, amended: the DenseNet configuration step never raises.  With a
    first detected device it applies one of two presets, Ribbon with
    Float16_b for Wormhole_B0 and CNN with the sparse-matmul padding for
    any other device; with no device it applies neither, keeps the
    unconditional settings (TM CPU fallback on, adv_index on the CPU)
    and the runner goes on to fetch the image.  The FLAN-T5
    configuration step detects no device and does not depend on one. *)
Theorem densenet_preset_keyed_on_first_device (w : World) (s : process) :
  (densenet_configure w s).1 = Ok tt ∧
  enable_tm_cpu_fallback (compiler_cfg (densenet_configure w s).2) = true ∧
  "adv_index" ∈ cpu_fallback_ops (compiler_cfg (densenet_configure w s).2) ∧
  match detect_available_devices w with
  | d :: _ =>
      if decide (d = Wormhole_B0) then
        applies_wormhole_preset (densenet_configure w s).2 ∧
        environ (densenet_configure w s).2 !! "PYBUDA_PAD_SPARSE_MM" =
          environ s !! "PYBUDA_PAD_SPARSE_MM"
      else
        applies_other_preset (densenet_configure w s).2 ∧
        default_df_override (compiler_cfg (densenet_configure w s).2) =
          default_df_override (compiler_cfg s)
  | [] =>
      balancer_policy (compiler_cfg (densenet_configure w s).2) =
        balancer_policy (compiler_cfg s) ∧
      default_df_override (compiler_cfg (densenet_configure w s).2) =
        default_df_override (compiler_cfg s) ∧
      environ (densenet_configure w s).2 !! "PYBUDA_PAD_SPARSE_MM" =
        environ s !! "PYBUDA_PAD_SPARSE_MM" ∧
      ∀ batch_size, ∃ evs,
        events (run_densenet_121_hf_xray_pytorch w batch_size s).2 =
          events s ++ EvDetectDevices :: EvHttpGet xray_url :: evs
  end ∧
  (events (flan_configure w s).2 = events s ∧
   ∀ w', enable_amp_light w' = enable_amp_light w ->
         flan_configure w' s = flan_configure w s).
Proof.
  split; [apply densenet_configure_ok|].
  split.
  { unfold densenet_configure. run_unfold. simpl.
    destruct (detect_available_devices w) as [|d ds]; [done|].
    destruct (decide (d = Wormhole_B0)); done. }
  split.
  { unfold densenet_configure. run_unfold. simpl.
    destruct (detect_available_devices w) as [|d ds]; simpl;
      [|destruct (decide (d = Wormhole_B0)); simpl];
      apply elem_of_union_l, elem_of_singleton; reflexivity. }
  split.
  - destruct (detect_available_devices w) as [|d ds] eqn:Hd.
    + split; [|split; [|split]].
      * unfold densenet_configure. run_unfold. simpl. by rewrite Hd.
      * unfold densenet_configure. run_unfold. simpl. by rewrite Hd.
      * unfold densenet_configure. run_unfold. simpl. rewrite Hd. simpl.
        by rewrite lookup_insert_ne.
      * intros batch_size.
        destruct (densenet_configure_events w s) as [Hev _].
        destruct (get_input_img_frame w (densenet_configure w s).2) as (_ & _ & Hev2).
        rewrite run_densenet_stages.
        destruct (get_input_img w (densenet_configure w s).2) as [[img|e] s2];
          simpl in Hev2.
        2:{ exists []. simpl. by rewrite Hev2, Hev, <- app_assoc. }
        destruct (torch_cat _) as [bt|e].
        2:{ exists []. simpl. by rewrite Hev2, Hev, <- app_assoc. }
        destruct (xrv_get_model w densenet_model_name) as [m|e].
        2:{ eexists. unfold log, modify. simpl.
            rewrite Hev2, Hev, <- !app_assoc. reflexivity. }
        cbv zeta.
        destruct (run_inference w _ _ _ _) as [o|e].
        -- destruct (densenet_report_frame w o
                       (log (EvRunInference (densenet_module m) [bt])
                          (log (EvGetModel densenet_model_name) s2).2).2)
             as (_ & _ & ->).
           eexists. unfold log, modify. simpl.
           rewrite Hev2, Hev, <- !app_assoc. reflexivity.
        -- eexists. unfold log, modify. simpl.
           rewrite Hev2, Hev, <- !app_assoc. reflexivity.
    + unfold applies_wormhole_preset, applies_other_preset.
      unfold densenet_configure. run_unfold. simpl. rewrite Hd.
      destruct (decide (d = Wormhole_B0)); simpl.
      * split; [done|]. by rewrite lookup_insert_ne.
      * split; [|done]. split; [done|]. by rewrite lookup_insert_eq.
  - split; [apply flan_configure_ok|].
    intros w' Hamp. by apply flan_configure_device_independent.
Qed.

Lemma densenet_preset_keyed_on_first_device_witness :
  applies_other_preset (densenet_configure (demo_world [Grayskull] [8; 8] 2) fresh_process).2 ∧
  flan_configure (demo_world [Wormhole_B0] [8; 8] 2) fresh_process =
    flan_configure (demo_world [Grayskull] [8; 8] 2) fresh_process.
Proof.
  destruct (densenet_preset_keyed_on_first_device
              (demo_world [Grayskull] [8; 8] 2) fresh_process)
    as (_ & _ & _ & Hsel & _ & Hflan).
  simpl in Hsel. split; [exact (proj1 Hsel)|].
  apply (Hflan (demo_world [Wormhole_B0] [8; 8] 2)). reflexivity.
Defined.

(** The environment after each configuration step. *)
Lemma densenet_configure_environ (w : World) (s : process) :
  environ (densenet_configure w s).2 !! "PYBUDA_DISABLE_CONSTANT_FOLDING" = Some "1" ∧
  ∀ k, k ≠ "PYBUDA_DISABLE_CONSTANT_FOLDING" -> k ≠ "PYBUDA_PAD_SPARSE_MM" ->
       environ (densenet_configure w s).2 !! k = environ s !! k.
Proof.
  unfold densenet_configure. run_unfold. simpl.
  destruct (detect_available_devices w) as [|d ds]; simpl;
    [|destruct (decide (d = Wormhole_B0)); simpl].
  - split; [by rewrite lookup_insert_eq|]. intros k H1 H2. by rewrite lookup_insert_ne.
  - split; [by rewrite lookup_insert_eq|]. intros k H1 H2. by rewrite lookup_insert_ne.
  - split; [by rewrite lookup_insert_ne, lookup_insert_eq|].
    intros k H1 H2. by rewrite !lookup_insert_ne.
Qed.

Lemma flan_configure_environ (w : World) (s : process) :
  Forall (fun kv => environ (flan_configure w s).2 !! kv.1 = Some kv.2) flan_environ ∧
  ∀ k, k ∉ flan_environ.*1 -> environ (flan_configure w s).2 !! k = environ s !! k.
Proof.
  unfold flan_configure. run_unfold. simpl. split.
  - repeat constructor; simpl;
      repeat (first [ by rewrite lookup_insert_eq | rewrite lookup_insert_ne by done ]).
  - intros k Hk. simpl in Hk.
    repeat (rewrite lookup_insert_ne;
            [|intros <-; apply Hk; repeat first [ by left | right ]]).
    reflexivity.
Qed.

(** C6 as stated fails: a DenseNet run leaves its settings in the
    process environment and in the global compiler configuration. *)
Lemma run_leaves_configuration_behind :
  ¬ leaves_no_configuration
      (run_densenet_121_hf_xray_pytorch (demo_world [Grayskull] [8; 8] 224) 1).
Proof.
  intros H. destruct (H fresh_process) as [He _].
  assert (Hk : environ (run_densenet_121_hf_xray_pytorch
                          (demo_world [Grayskull] [8; 8] 224) 1 fresh_process).2
                 !! "PYBUDA_DISABLE_CONSTANT_FOLDING" = Some "1") by (by vm_compute).
  rewrite He in Hk. vm_compute in Hk. discriminate Hk.
Qed.

(** C6, amended: each invocation writes its settings into the
    process-wide environment and compiler configuration and nothing
    removes them.  After a run, whatever its outcome, they hold what the
    configuration step wrote; the variables a runner does not write keep
    their earlier values, so the settings of a FLAN-T5 run are still
    there after a later DenseNet run. *)
Theorem configuration_outlives_the_run (w : World) (variant : string)
    (batch_size : Z) (s : process) :
  (environ (run_densenet_121_hf_xray_pytorch w batch_size s).2
     !! "PYBUDA_DISABLE_CONSTANT_FOLDING" = Some "1" ∧
   enable_tm_cpu_fallback
     (compiler_cfg (run_densenet_121_hf_xray_pytorch w batch_size s).2) = true ∧
   (∀ k, k ≠ "PYBUDA_DISABLE_CONSTANT_FOLDING" -> k ≠ "PYBUDA_PAD_SPARSE_MM" ->
         environ (run_densenet_121_hf_xray_pytorch w batch_size s).2 !! k =
           environ s !! k)) ∧
  (Forall (fun kv =>
             environ (run_flan_t5_pybuda_pipeline w variant batch_size s).2 !! kv.1 =
               Some kv.2) flan_environ ∧
   (∀ k, k ∉ flan_environ.*1 ->
         environ (run_flan_t5_pybuda_pipeline w variant batch_size s).2 !! k =
           environ s !! k)) ∧
  Forall (fun kv =>
            environ (run_densenet_121_hf_xray_pytorch w batch_size
                       (run_flan_t5_pybuda_pipeline w variant batch_size s).2).2 !! kv.1 =
              Some kv.2) flan_environ.
Proof.
  assert (Hd : ∀ x,
    environ (run_densenet_121_hf_xray_pytorch w batch_size x).2
      !! "PYBUDA_DISABLE_CONSTANT_FOLDING" = Some "1" ∧
    enable_tm_cpu_fallback
      (compiler_cfg (run_densenet_121_hf_xray_pytorch w batch_size x).2) = true ∧
    (∀ k, k ≠ "PYBUDA_DISABLE_CONSTANT_FOLDING" -> k ≠ "PYBUDA_PAD_SPARSE_MM" ->
          environ (run_densenet_121_hf_xray_pytorch w batch_size x).2 !! k =
            environ x !! k)).
  { intros x.
    destruct (run_densenet_frame w batch_size x) as [-> ->].
    destruct (densenet_configure_environ w x) as [H1 H2].
    split; [exact H1|]. split; [|exact H2].
    unfold densenet_configure. run_unfold. simpl.
    destruct (detect_available_devices w) as [|d ds]; [done|].
    destruct (decide (d = Wormhole_B0)); done. }
  assert (Hf : Forall (fun kv =>
             environ (run_flan_t5_pybuda_pipeline w variant batch_size s).2 !! kv.1 =
               Some kv.2) flan_environ ∧
   (∀ k, k ∉ flan_environ.*1 ->
         environ (run_flan_t5_pybuda_pipeline w variant batch_size s).2 !! k =
           environ s !! k)).
  { destruct (run_flan_frame w variant batch_size s) as [-> _].
    apply flan_configure_environ. }
  split; [apply Hd|]. split; [exact Hf|].
  destruct Hf as [Hf _].
  destruct (Hd (run_flan_t5_pybuda_pipeline w variant batch_size s).2) as (_ & _ & Hk).
  unfold flan_environ in *.
  repeat match goal with
         | H : Forall _ (_ :: _) |- _ => apply Forall_cons_1 in H as [? H]
         end.
  repeat constructor; simpl in *; rewrite Hk by done; assumption.
Qed.

Lemma configuration_outlives_the_run_witness :
  environ (run_densenet_121_hf_xray_pytorch (demo_world [Grayskull] [8; 8] 2) 1
             fresh_process).2 !! "PYBUDA_NLP_MANUAL_TARGET" = None ∧
  environ (run_flan_t5_pybuda_pipeline (demo_world [Grayskull] [8; 8] 2)
             flan_default_variant 1 fresh_process).2 !! "PYBUDA_PAD_SPARSE_MM" = None.
Proof.
  destruct (configuration_outlives_the_run (demo_world [Grayskull] [8; 8] 2)
              flan_default_variant 1 fresh_process)
    as ((_ & _ & Hd) & (_ & Hf) & _).
  split.
  - rewrite Hd by done. reflexivity.
  - rewrite Hf; [reflexivity|].
    intros Hin. cbn in Hin.
    repeat (apply elem_of_cons in Hin as [Hin | Hin]; [discriminate Hin|]).
    by apply elem_of_nil in Hin.
Defined.

(* ===================================================================== *)
(** ** Repeated runs *)
(* ===================================================================== *)

(** C7: a second DenseNet run, started from a state that has the
    environment and the compiler configuration the first run left,
    returns what the first returned and prints the same mapping, keys
    and values; and two outputs with the same dimension 0 give mappings
    with the same key set whatever their values. *)
Theorem repeated_run_same_mapping (w : World) (batch_size : Z) (s s' : process) :
  environ s' = environ (run_densenet_121_hf_xray_pytorch w batch_size s).2 ->
  compiler_cfg s' = compiler_cfg (run_densenet_121_hf_xray_pytorch w batch_size s).2 ->
  (run_densenet_121_hf_xray_pytorch w batch_size s').1 =
    (run_densenet_121_hf_xray_pytorch w batch_size s).1 ∧
  (∃ out,
     stdout (run_densenet_121_hf_xray_pytorch w batch_size s).2 = stdout s ++ out ∧
     stdout (run_densenet_121_hf_xray_pytorch w batch_size s').2 = stdout s' ++ out) ∧
  (∀ out1 out2 o1 o2 p1 p2,
     out1 !! 0 = Some o1 -> out2 !! 0 = Some o2 -> dim0 o1 = dim0 o2 ->
     postprocess (default_pathologies w) out1 = Ok p1 ->
     postprocess (default_pathologies w) out2 = Ok p2 ->
     dom p1 = dom p2).
Proof.
  intros He Hc.
  destruct (run_densenet_frame w batch_size s) as [Hfe Hfc].
  rewrite Hfe in He. rewrite Hfc in Hc.
  destruct (densenet_configure_determined w _ _ He Hc) as [He' Hc'].
  destruct (densenet_configure_idem w s) as [Hie Hic].
  rewrite Hie in He'. rewrite Hic in Hc'.
  destruct (run_densenet_uniform w batch_size
              (environ (densenet_configure w s).2)
              (compiler_cfg (densenet_configure w s).2)) as (r & evs & out & Hu).
  rewrite (Hu s eq_refl eq_refl), (Hu s' He' Hc'). simpl.
  split; [reflexivity|]. split.
  - exists out.
    destruct (densenet_configure_events w s) as [_ ->].
    destruct (densenet_configure_events w s') as [_ ->]. done.
  - intros out1 out2 o1 o2 p1 p2 H1 H2 Hdim Hp1 Hp2.
    rewrite (postprocess_dom _ _ _ _ H1 Hp1), (postprocess_dom _ _ _ _ H2 Hp2).
    by rewrite Hdim.
Qed.

Lemma repeated_run_same_mapping_witness :
  (run_densenet_121_hf_xray_pytorch (demo_world [Grayskull] [8; 8] 2) 2
     (run_densenet_121_hf_xray_pytorch (demo_world [Grayskull] [8; 8] 2) 2
        fresh_process).2).1 =
  (run_densenet_121_hf_xray_pytorch (demo_world [Grayskull] [8; 8] 2) 2 fresh_process).1.
Proof.
  apply (repeated_run_same_mapping (demo_world [Grayskull] [8; 8] 2) 2 fresh_process
           (run_densenet_121_hf_xray_pytorch (demo_world [Grayskull] [8; 8] 2) 2
              fresh_process).2 eq_refl eq_refl).
Defined.

(* ===================================================================== *)
(** ** The FLAN-T5 scenario *)
(* ===================================================================== *)




(* ===================================================================== *)
(** ** The test harness *)
(* ===================================================================== *)

(** C8 as stated fails: the MobileNet-SSD test takes no batch size and
    calls its runner without arguments. *)
Lemma mobilenet_test_has_no_batch_size :
  ¬ (∀ t, t ∈ Harness.all_tests ->
          Harness.receives_three_fixtures t ∧ Harness.passes_batch_size t).
Proof.
  intros H.
  destruct (H Harness.test_mobilenetv2_ssd_1x1_tflite) as [_ Hb].
  { unfold Harness.all_tests. repeat (first [ by left | right ]). }
  specialize (Hb "" 1%Z). discriminate Hb.
Qed.

(** C8, amended: every test function takes the cleanup hook and the
    device descriptor.  Every test but the MobileNet-SSD one also takes
    the batch size and passes it to its runner as [batch_size], after the
    variant when the test is parametrized; the MobileNet-SSD test takes
    the two fixtures only and calls its runner without arguments. *)
Theorem tests_pass_fixtures_to_runners (t : Harness.test_function) :
  t ∈ Harness.all_tests ->
  "clear_pybuda" ∈ Harness.params t ∧
  "test_device" ∈ Harness.params t ∧
  (Harness.test_name t ≠ "test_mobilenetv2_ssd_1x1_tflite" ->
   "batch_size" ∈ Harness.params t ∧
   Harness.passes_batch_size t ∧
   Harness.passes_variant t ∧
   ("variant" ∈ Harness.params t ↔ is_Some (Harness.parametrize t))) ∧
  (Harness.test_name t = "test_mobilenetv2_ssd_1x1_tflite" ->
   Harness.params t = ["clear_pybuda"; "test_device"] ∧
   ∀ variant batch_size,
     Harness.invoke t variant batch_size =
       {| Harness.callee := "run_mobilenetv2_ssd_1x1_tflite";
          Harness.positional := [];
          Harness.keywords := [] |}).
Proof.
  intros Ht. unfold Harness.all_tests in Ht.
  repeat (apply elem_of_cons in Ht as [-> | Ht]); [..|by apply elem_of_nil in Ht].
  all: split; [simpl; repeat (first [ by left | right ])|].
  all: split; [simpl; repeat (first [ by left | right ])|].
  all: split; [intros Hname|intros Hname];
    try (simpl in Hname; congruence).
  all: try (split; [reflexivity|intros; reflexivity]).
  all: split; [simpl; repeat (first [ by left | right ])|].
  all: split; [intros variant batch_size; reflexivity|].
  all: split; [intros variant batch_size; reflexivity|].
  all: simpl; split; intros H; try (by eexists).
  all: try (repeat (first [ by left | right ])).
  all: try (by destruct H).
  all: repeat (apply elem_of_cons in H as [H | H]; [discriminate H|]);
    by apply elem_of_nil in H.
Qed.

Lemma tests_pass_fixtures_to_runners_witness :
  Harness.test_densenet_121_hf_xray_pytorch ∈ Harness.all_tests ∧
  Harness.keywords (Harness.invoke Harness.test_densenet_121_hf_xray_pytorch "" 4) =
    [("batch_size", Harness.AInt 4)].
Proof.
  assert (Hin : Harness.test_densenet_121_hf_xray_pytorch ∈ Harness.all_tests).
  { unfold Harness.all_tests. repeat (first [ by left | right ]). }
  split; [exact Hin|].
  destruct (tests_pass_fixtures_to_runners _ Hin) as (_ & _ & Hb & _).
  destruct (Hb ltac:(discriminate)) as (_ & Hpass & _).
  apply Hpass.
Defined.

(* ===================================================================== *)
(** ** More about the image pipeline *)
(* ===================================================================== *)

Lemma emit_events_only (s : process) (evs : list event) :
  emit s evs [] =
    {| environ := environ s; compiler_cfg := compiler_cfg s;
       events := events s ++ evs; stdout := stdout s |}.
Proof. unfold emit. by rewrite app_nil_r. Qed.

(** [get_input_img], case by case.  The message is printed only on the
    path on which the next statement raises. *)
Lemma get_input_img_cases (w : World) (s : process) :
  get_input_img w s =
    match fetch_image w xray_url with
    | Raise e => (Raise e, emit s [EvHttpGet xray_url] [])
    | Ok raw =>
        match xrv_normalize w raw 255 with
        | Raise e => (Raise e, emit s [EvHttpGet xray_url] [])
        | Ok a =>
            match (if Nat.ltb 2 (rank a) then index_axis2_first a else Ok a) with
            | Raise e => (Raise e, emit s [EvHttpGet xray_url] [])
            | Ok a' =>
                match new_axis_2d a' with
                | Raise e =>
                    (Raise e,
                     emit s [EvHttpGet xray_url]
                       (if Nat.ltb (rank a') 2 then [PrintStr rank_error_message] else []))
                | Ok c =>
                    match xrv_transform w c with
                    | Raise e => (Raise e, emit s [EvHttpGet xray_url] [])
                    | Ok t => (Ok (unsqueeze0 t), emit s [EvHttpGet xray_url] [])
                    end
                end
            end
        end
    end.
Proof.
  rewrite !emit_events_only.
  unfold get_input_img. run_unfold. simpl.
  destruct (fetch_image w xray_url) as [raw|e]; [|done]. simpl.
  destruct (xrv_normalize w raw 255) as [a|e]; [|done]. simpl.
  assert (Hlow : ∀ a' : tensor,
            Nat.ltb (rank a') 2 = true -> ∃ e, new_axis_2d a' = Raise e).
  { intros a' Hr. apply Nat.ltb_lt in Hr. eexists. by apply new_axis_2d_low_rank. }
  destruct (Nat.ltb 2 (rank a)); simpl.
  - destruct (index_axis2_first a) as [a'|e]; [|done]. simpl.
    destruct (Nat.ltb (rank a') 2) eqn:Hr; simpl.
    + destruct (Hlow a' Hr) as [e ->]. unfold emit. simpl. done.
    + destruct (new_axis_2d a') as [c|e]; simpl.
      * destruct (xrv_transform w c); done.
      * unfold emit. simpl. by rewrite app_nil_r.
  - destruct (Nat.ltb (rank a) 2) eqn:Hr; simpl.
    + destruct (Hlow a Hr) as [e ->]. unfold emit. simpl. done.
    + destruct (new_axis_2d a) as [c|e]; simpl.
      * destruct (xrv_transform w c); done.
      * unfold emit. simpl. by rewrite app_nil_r.
Qed.

(** A successful [get_input_img] printed nothing. *)
Lemma get_input_img_ok_state (w : World) (s s2 : process) (img : tensor) :
  get_input_img w s = (Ok img, s2) -> s2 = emit s [EvHttpGet xray_url] [].
Proof.
  rewrite get_input_img_cases.
  destruct (fetch_image w xray_url) as [raw|e]; [|done].
  destruct (xrv_normalize w raw 255) as [a|e]; [|done].
  destruct (if Nat.ltb 2 (rank a) then _ else _) as [a'|e]; [|done].
  destruct (new_axis_2d a') as [c|e]; [|done].
  destruct (xrv_transform w c) as [t|e]; [|done].
  by intros [= _ <-].
Qed.

(** Picking the first element of each of [n] consecutive blocks of
    [c] elements. *)
Lemma first_of_chunks_lookup {A} (c n : nat) (l : list A) (k : nat) :
  (0 < c)%nat -> (k < n)%nat -> (n * c ≤ length l)%nat ->
  concat (take 1 <$> chunks c n l) !! k = l !! (k * c).
Proof.
  intros Hc. revert l k. induction n as [|n IH]; intros l k Hk Hlen; [lia|].
  cbn [chunks fmap list_fmap concat].
  destruct l as [|x l]; [simpl in Hlen; lia|].
  destruct c as [|c]; [lia|].
  cbn [take]. rewrite take_0. cbn [app].
  destruct k as [|k]; [reflexivity|].
  cbn [lookup list_lookup]. change (list_lookup k) with (lookup (M := list A) k).
  rewrite IH.
  - rewrite lookup_drop. simpl. f_equal.
  - lia.
  - rewrite length_drop. simpl in Hlen |- *. lia.
Qed.

Lemma first_of_chunks_length {A} (c n : nat) (l : list A) :
  (0 < c)%nat -> (n * c ≤ length l)%nat ->
  length (concat (take 1 <$> chunks c n l)) = n.
Proof.
  intros Hc. revert l. induction n as [|n IH]; intros l Hlen; [reflexivity|].
  cbn [chunks fmap list_fmap concat].
  rewrite length_app, IH by (rewrite length_drop; lia).
  rewrite !length_take. lia.
Qed.

(** X1: a colour image of shape [h, wd, c] with [c > 0]: the transform gets
    one channel of shape [1, h, wd] whose pixel [k] is element [k * c]
    of the normalized image, channel 0 of that pixel; nothing is
    printed. *)
Theorem colour_image_uses_first_channel (w : World) (s : process)
    (raw img : tensor) (h wd c : nat) :
  fetch_image w xray_url = Ok raw ->
  xrv_normalize w raw 255 = Ok img ->
  shape img = [h; wd; c] ->
  (0 < c)%nat ->
  length (data img) = (h * wd * c)%nat ->
  ∃ x : tensor,
    shape x = [1; h; wd] ∧
    length (data x) = (h * wd)%nat ∧
    (∀ k, (k < h * wd)%nat -> data x !! k = data img !! (k * c)%nat) ∧
    get_input_img w s =
      (match xrv_transform w x with
       | Ok t => Ok (unsqueeze0 t)
       | Raise e => Raise e
       end,
       emit s [EvHttpGet xray_url] []).
Proof.
  intros Hf Hn Hsh Hc Hlen.
  exists {| shape := [1; h; wd];
            data := concat (take 1 <$> chunks c (h * wd) (data img)) |}.
  split; [reflexivity|].
  split; [cbn [data]; apply first_of_chunks_length; [exact Hc | lia]|].
  split; [intros k Hk; cbn [data]; apply first_of_chunks_lookup; [exact Hc | exact Hk | lia]|].
  rewrite get_input_img_cases, Hf, Hn.
  unfold rank. rewrite Hsh. cbn [length Nat.ltb Nat.leb].
  unfold index_axis2_first. rewrite Hsh.
  destruct c as [|c]; [lia|]. cbn [Nat.eqb numel foldr].
  rewrite Nat.mul_1_r.
  unfold new_axis_2d. cbn [shape data].
  destruct (xrv_transform w _); reflexivity.
Qed.

Lemma colour_image_uses_first_channel_witness :
  ∃ x : tensor,
    shape x = [1; 2; 2] ∧
    data x !! 3 =
      Some ((2 * ((128 # 1) / inject_Z 255) - 1) * 1024)%Q.
Proof.
  destruct (colour_image_uses_first_channel (demo_world [Grayskull] [2; 2; 3] 2)
              fresh_process
              {| shape := [2; 2; 3]; data := replicate 12 (128 # 1)%Q |}
              {| shape := [2; 2; 3];
                 data := (fun x => (2 * (x / inject_Z 255) - 1) * 1024)%Q
                           <$> replicate 12 (128 # 1)%Q |}
              2 2 3 eq_refl eq_refl eq_refl ltac:(lia) eq_refl)
    as (x & Hsh & _ & Hpix & _).
  exists x. split; [exact Hsh|].
  rewrite (Hpix 3 ltac:(lia)). reflexivity.
Defined.

(** X2: an image with four dimensions is not reduced to two: the check
    strips one axis only, no message is printed, and the transform gets
    an array of four dimensions. *)
Theorem four_dimensional_image_not_flattened (w : World) (s : process)
    (raw img : tensor) (d0 d1 d2 d3 : nat) :
  fetch_image w xray_url = Ok raw ->
  xrv_normalize w raw 255 = Ok img ->
  shape img = [d0; d1; d2; d3] ->
  (0 < d2)%nat ->
  ∃ x : tensor,
    shape x = [1; d0; d1; d3] ∧
    get_input_img w s =
      (match xrv_transform w x with
       | Ok t => Ok (unsqueeze0 t)
       | Raise e => Raise e
       end,
       emit s [EvHttpGet xray_url] []).
Proof.
  intros Hf Hn Hsh Hc.
  exists {| shape := [1; d0; d1; d3];
            data := concat (take (numel [d3])
                              <$> chunks (d2 * numel [d3]) (d0 * d1) (data img)) |}.
  split; [reflexivity|].
  rewrite get_input_img_cases, Hf, Hn.
  unfold rank. rewrite Hsh. cbn [length Nat.ltb Nat.leb].
  unfold index_axis2_first. rewrite Hsh.
  destruct (Nat.eqb_spec d2 0) as [->|_]; [lia|].
  unfold new_axis_2d. cbn [shape data].
  destruct (xrv_transform w _); reflexivity.
Qed.

Lemma four_dimensional_image_not_flattened_witness :
  ∃ x : tensor,
    shape x = [1; 2; 2; 2] ∧
    (get_input_img (demo_world [Grayskull] [2; 2; 3; 2] 2) fresh_process).1 =
      match resize_to 2 x with Ok t => Ok (unsqueeze0 t) | Raise e => Raise e end.
Proof.
  destruct (four_dimensional_image_not_flattened
              (demo_world [Grayskull] [2; 2; 3; 2] 2) fresh_process
              {| shape := [2; 2; 3; 2]; data := replicate 24 (128 # 1)%Q |}
              {| shape := [2; 2; 3; 2];
                 data := (fun x => (2 * (x / inject_Z 255) - 1) * 1024)%Q
                           <$> replicate 24 (128 # 1)%Q |}
              2 2 3 2 eq_refl eq_refl eq_refl ltac:(lia))
    as (x & Hsh & Hrun).
  exists x. split; [exact Hsh|]. by rewrite Hrun.
Defined.

(* ===================================================================== *)
(** ** More about the DenseNet run *)
(* ===================================================================== *)

Lemma emit_prints_only (s : process) (out : list printed) :
  emit s [] out =
    {| environ := environ s; compiler_cfg := compiler_cfg s;
       events := events s; stdout := stdout s ++ out |}.
Proof. unfold emit. by rewrite app_nil_r. Qed.

(** The report, case by case. *)
Lemma densenet_report_cases (w : World) (output : list tensor) (st : process) :
  densenet_report w output st =
    match combine_outputs (default "0" (environ st !! data_parallel_flag)) output with
    | Raise e => (Raise e, st)
    | Ok o =>
        match postprocess (default_pathologies w) o with
        | Raise e => (Raise e, st)
        | Ok p => (Ok tt, emit st [] [PrintDict p])
        end
    end.
Proof.
  unfold densenet_report, densenet_print_preds, bind, environ_get, lift, print, modify.
  destruct (combine_outputs _ output) as [o|e]; [|reflexivity].
  destruct (postprocess _ o) as [p|e]; [|reflexivity].
  by rewrite emit_prints_only.
Qed.

(** A run whose image, model and inference succeed ends in the report,
    with nothing printed so far. *)
Lemma run_densenet_reaches_report (w : World) (batch_size : Z) (s s2 : process)
    (img bt : tensor) (m : string) (out : list tensor) :
  get_input_img w (densenet_configure w s).2 = (Ok img, s2) ->
  torch_cat (replicate (Z.to_nat batch_size) img) = Ok bt ->
  xrv_get_model w densenet_model_name = Ok m ->
  run_inference w (environ (densenet_configure w s).2)
    (compiler_cfg (densenet_configure w s).2) (densenet_module m) [bt] = Ok out ->
  run_densenet_121_hf_xray_pytorch w batch_size s =
    densenet_report w out (emit (densenet_configure w s).2 (densenet_calls m bt) []).
Proof.
  intros Hg Hcat Hm Hrun.
  rewrite run_densenet_stages, Hg, Hcat, Hm, Hrun. cbv zeta.
  rewrite (get_input_img_ok_state _ _ _ _ Hg).
  f_equal. unfold log, modify, emit, densenet_calls. cbn [snd environ compiler_cfg events stdout].
  by rewrite <- !app_assoc.
Qed.

(** X5: a failure of a collaborator is the result of the run.  Whatever
    the image fetch, the model load or the runtime raises comes out of
    the runner unchanged, nothing is printed, and after a failed fetch
    or model load nothing has been submitted. *)
Theorem densenet_failures_propagate (w : World) (batch_size : Z) (s : process)
    (e : exn) :
  (fetch_image w xray_url = Raise e ->
   (run_densenet_121_hf_xray_pytorch w batch_size s).1 = Raise e ∧
   stdout (run_densenet_121_hf_xray_pytorch w batch_size s).2 = stdout s ∧
   events (run_densenet_121_hf_xray_pytorch w batch_size s).2 =
     events s ++ [EvDetectDevices; EvHttpGet xray_url]) ∧
  (∀ img s2 bt,
     get_input_img w (densenet_configure w s).2 = (Ok img, s2) ->
     torch_cat (replicate (Z.to_nat batch_size) img) = Ok bt ->
     (xrv_get_model w densenet_model_name = Raise e ->
      (run_densenet_121_hf_xray_pytorch w batch_size s).1 = Raise e ∧
      stdout (run_densenet_121_hf_xray_pytorch w batch_size s).2 = stdout s ∧
      submitted_tensors (events (run_densenet_121_hf_xray_pytorch w batch_size s).2) =
        submitted_tensors (events s)) ∧
     (∀ m,
        xrv_get_model w densenet_model_name = Ok m ->
        run_inference w (environ (densenet_configure w s).2)
          (compiler_cfg (densenet_configure w s).2) (densenet_module m) [bt] = Raise e ->
        (run_densenet_121_hf_xray_pytorch w batch_size s).1 = Raise e ∧
        stdout (run_densenet_121_hf_xray_pytorch w batch_size s).2 = stdout s)).
Proof.
  destruct (densenet_configure_events w s) as [Hev Hout].
  split.
  - intros Hf. rewrite run_densenet_stages, get_input_img_cases, Hf.
    cbn [fst snd]. rewrite emit_events_only. cbn [stdout events].
    rewrite Hev, Hout, <- app_assoc. done.
  - intros img s2 bt Hg Hcat.
    pose proof (get_input_img_ok_state _ _ _ _ Hg) as Hs2.
    rewrite emit_events_only in Hs2.
    split.
    + intros Hm. rewrite run_densenet_stages, Hg, Hcat, Hm. cbv zeta.
      cbn [fst snd]. rewrite log_stdout, log_events. subst s2. cbn [stdout events].
      rewrite Hev, Hout. split; [reflexivity|]. split; [reflexivity|].
      rewrite !submitted_tensors_app. cbn. by rewrite !app_nil_r.
    + intros m Hm Hrun. rewrite run_densenet_stages, Hg, Hcat, Hm, Hrun. cbv zeta.
      cbn [fst snd]. rewrite !log_stdout. subst s2. cbn [stdout].
      by rewrite Hout.
Qed.

Lemma demo_get_input_img (devices : list BackendDevice) (s : process) :
  get_input_img (demo_world devices [8; 8] 2) s =
    (Ok demo_img, emit s [EvHttpGet xray_url] []).
Proof. rewrite get_input_img_cases. vm_compute. reflexivity. Qed.

Lemma densenet_failures_propagate_witness :
  (run_densenet_121_hf_xray_pytorch
     (with_runtime_fault (demo_world [Grayskull] [8; 8] 2) (ExternalError "device fault"))
     1 fresh_process).1 = Raise (ExternalError "device fault").
Proof.
  destruct (densenet_failures_propagate
              (with_runtime_fault (demo_world [Grayskull] [8; 8] 2)
                 (ExternalError "device fault"))
              1 fresh_process (ExternalError "device fault")) as [_ H].
  destruct (H demo_img
              (emit (densenet_configure
                       (with_runtime_fault (demo_world [Grayskull] [8; 8] 2)
                          (ExternalError "device fault")) fresh_process).2
                 [EvHttpGet xray_url] [])
              {| shape := [1; 1; 2; 2]; data := data demo_img |}
              ltac:(vm_compute; reflexivity) ltac:(vm_compute; reflexivity))
    as [_ Hrun].
  exact (proj1 (Hrun densenet_model_name eq_refl eq_refl)).
Defined.

(* ===================================================================== *)
(** ** More about the printed mapping *)
(* ===================================================================== *)

Lemma chunks_lookup {A} (k n i : nat) (l : list A) :
  (i < n)%nat -> chunks k n l !! i = Some (take k (drop (i * k) l)).
Proof.
  revert i l. induction n as [|n IH]; intros i l Hi; [lia|].
  destruct i as [|i]; cbn [chunks]; [reflexivity|].
  cbn [lookup list_lookup]. change (list_lookup i) with (lookup (M := list (list A)) i).
  rewrite IH by lia. rewrite drop_drop. reflexivity.
Qed.

Lemma rows_lookup (t : tensor) (n i : nat) (tl : list nat) :
  shape t = n :: tl -> (i < n)%nat ->
  ∃ vs, rows t = Ok vs ∧ length vs = n ∧
        vs !! i = Some {| shape := tl;
                          data := take (numel tl) (drop (i * numel tl) (data t)) |}.
Proof.
  intros Hsh Hi. unfold rows. rewrite Hsh. eexists. split; [reflexivity|].
  split; [by rewrite length_fmap, chunks_length|].
  rewrite list_lookup_fmap, chunks_lookup by exact Hi. reflexivity.
Qed.

Lemma foldl_insert_lookup_notin {A} (kvs : list (string * A)) (d : gmap string A)
    (k : string) :
  k ∉ kvs.*1 ->
  foldl (fun d kv => <[kv.1 := kv.2]> d) d kvs !! k = d !! k.
Proof.
  revert d. induction kvs as [|[k' v'] kvs IH]; intros d Hk; [reflexivity|].
  cbn [foldl]. rewrite IH.
  - apply lookup_insert_ne. cbn. intros ->. apply Hk. cbn. apply elem_of_cons. by left.
  - intros Hin. apply Hk. cbn. apply elem_of_cons. by right.
Qed.

Lemma foldl_insert_lookup_in {A} (kvs : list (string * A)) (d : gmap string A)
    (i : nat) (k : string) (v : A) :
  NoDup kvs.*1 -> kvs !! i = Some (k, v) ->
  foldl (fun d kv => <[kv.1 := kv.2]> d) d kvs !! k = Some v.
Proof.
  revert d i. induction kvs as [|[k' v'] kvs IH]; intros d i Hnd Hi; [done|].
  cbn in Hnd. apply NoDup_cons in Hnd as [Hnotin Hnd].
  destruct i as [|i]; cbn in Hi.
  - injection Hi as -> ->. cbn [foldl].
    rewrite foldl_insert_lookup_notin by exact Hnotin.
    apply lookup_insert_eq.
  - cbn [foldl]. by apply (IH _ i).
Qed.

(** X7: the label at position [i] is bound to the slice [i] of output
    [0] along dimension 0: for an output of shape [n, 18] the value of
    label [i] is the whole row of scores of sample [i], a tensor of
    shape [18], and labels from position [n] on are absent. *)
Theorem label_is_bound_to_sample_row (pathologies : list string)
    (output : list tensor) (o0 : tensor) (n : nat) (tl : list nat)
    (preds : gmap string tensor) :
  NoDup pathologies ->
  output !! 0%nat = Some o0 ->
  shape o0 = n :: tl ->
  postprocess pathologies output = Ok preds ->
  ∀ (i : nat) (k : string),
    pathologies !! i = Some k ->
    preds !! k =
      if decide (i < n)%nat then
        Some {| shape := tl;
                data := take (numel tl) (drop (i * numel tl) (data o0)) |}
      else None.
Proof.
  intros Hnd H0 Hsh Hp i k Hk.
  unfold postprocess, list_index in Hp. rewrite H0 in Hp.
  destruct (decide (i < n)%nat) as [Hi|Hi].
  - destruct (rows_lookup o0 n i tl Hsh Hi) as (vs & Hrows & Hlen & Hv).
    rewrite Hrows in Hp. injection Hp as <-.
    unfold dict_of_pairs. apply (foldl_insert_lookup_in _ _ i).
    + rewrite fst_zip_take. eapply sublist_NoDup; [exact Hnd | apply sublist_take].
    + rewrite lookup_zip_with, Hk. cbn. by rewrite Hv.
  - unfold rows in Hp. rewrite Hsh in Hp. injection Hp as <-.
    unfold dict_of_pairs. rewrite foldl_insert_lookup_notin; [apply lookup_empty|].
    rewrite fst_zip_take, length_fmap, chunks_length.
    intros Hin. apply list_elem_of_lookup in Hin as [j Hj].
    apply lookup_take_Some in Hj as [Hj Hlt].
    assert (i = j) by (eapply NoDup_lookup; eauto). lia.
Qed.

Lemma xrv_pathologies_nodup : NoDup xrv_pathologies.
Proof. apply (bool_decide_unpack _). by vm_compute. Qed.

Lemma label_is_bound_to_sample_row_witness :
  ∃ preds : gmap string tensor,
    postprocess xrv_pathologies
      [ {| shape := [2; 18];
           data := replicate 18 (1 # 2)%Q ++ replicate 18 (1 # 4)%Q |} ] = Ok preds ∧
    preds !! "Consolidation" = Some {| shape := [18]; data := replicate 18 (1 # 4)%Q |} ∧
    preds !! "Infiltration" = None.
Proof.
  assert (∃ p, postprocess xrv_pathologies
                 [ {| shape := [2; 18];
                      data := replicate 18 (1 # 2)%Q ++ replicate 18 (1 # 4)%Q |} ] = Ok p)
    as [preds Hp] by (eexists; vm_compute; reflexivity).
  exists preds. split; [exact Hp|].
  pose proof (label_is_bound_to_sample_row xrv_pathologies
                [ {| shape := [2; 18];
                     data := replicate 18 (1 # 2)%Q ++ replicate 18 (1 # 4)%Q |} ]
                {| shape := [2; 18];
                   data := replicate 18 (1 # 2)%Q ++ replicate 18 (1 # 4)%Q |}
                2 [18] preds
                xrv_pathologies_nodup eq_refl eq_refl Hp) as H.
  split.
  - rewrite (H 1 "Consolidation" eq_refl). reflexivity.
  - rewrite (H 2 "Infiltration" eq_refl). reflexivity.
Defined.

Lemma densenet_flag_unchanged (w : World) (s : process) :
  environ (densenet_configure w s).2 !! data_parallel_flag =
    environ s !! data_parallel_flag.
Proof. by apply densenet_configure_environ. Qed.

Lemma combine_outputs_off (flag : string) (output : list tensor) :
  flag ≠ "1" -> combine_outputs flag output = Ok output.
Proof. intros Hne. unfold combine_outputs. by destruct (decide (flag = "1")). Qed.

Lemma default_flag_off (o : option string) : o ≠ Some "1" -> default "0" o ≠ "1".
Proof. destruct o as [v|]; cbn; [intros Hne ->; by apply Hne | discriminate]. Qed.

(** X8: a successful run prints one mapping with one key per slice of
    the output along dimension 0, at most as many as there are labels:
    for a batch of [n] samples and an output of shape [n, 18] the
    mapping has min(n, 18) keys. *)
Theorem densenet_prints_one_key_per_sample (w : World) (batch_size : Z)
    (s s2 : process) (img bt o : tensor) (m : string) (n : nat) (tl : list nat) :
  NoDup (default_pathologies w) ->
  get_input_img w (densenet_configure w s).2 = (Ok img, s2) ->
  torch_cat (replicate (Z.to_nat batch_size) img) = Ok bt ->
  xrv_get_model w densenet_model_name = Ok m ->
  run_inference w (environ (densenet_configure w s).2)
    (compiler_cfg (densenet_configure w s).2) (densenet_module m) [bt] = Ok [o] ->
  shape o = n :: tl ->
  environ s !! data_parallel_flag ≠ Some "1" ->
  ∃ preds : gmap string tensor,
    run_densenet_121_hf_xray_pytorch w batch_size s =
      (Ok tt,
       emit (densenet_configure w s).2 (densenet_calls m bt) [PrintDict preds]) ∧
    size preds = min n (length (default_pathologies w)).
Proof.
  intros Hnd Hg Hcat Hm Hrun Hsh Hflag.
  rewrite (run_densenet_reaches_report _ _ _ _ _ _ _ _ Hg Hcat Hm Hrun).
  rewrite densenet_report_cases. cbn [emit environ].
  rewrite densenet_flag_unchanged.
  rewrite (combine_outputs_off _ _ (default_flag_off _ Hflag)).
  assert (Hp : ∃ p, postprocess (default_pathologies w) [o] = Ok p).
  { unfold postprocess, list_index. cbn [lookup list_lookup].
    unfold rows. rewrite Hsh. by eexists. }
  destruct Hp as [p Hp]. rewrite Hp. exists p. split.
  - unfold emit. cbn [environ compiler_cfg events stdout].
    by rewrite !app_nil_r.
  - rewrite (postprocess_size _ [o] o p Hnd eq_refl Hp).
    unfold dim0. by rewrite Hsh.
Qed.

Lemma densenet_prints_one_key_per_sample_witness :
  ∃ preds : gmap string tensor,
    stdout (run_densenet_121_hf_xray_pytorch (demo_world [Grayskull] [8; 8] 2) 32
              fresh_process).2 = [PrintDict preds] ∧
    size preds = 18.
Proof.
  destruct (densenet_prints_one_key_per_sample (demo_world [Grayskull] [8; 8] 2) 32
              fresh_process
              (emit (densenet_configure (demo_world [Grayskull] [8; 8] 2) fresh_process).2
                 [EvHttpGet xray_url] [])
              demo_img
              {| shape := [32; 1; 2; 2];
                 data := concat (replicate 32 (data demo_img)) |}
              {| shape := [32; 18]; data := replicate (32 * 18) (1 # 2)%Q |}
              densenet_model_name 32 [18]
              xrv_pathologies_nodup
              (demo_get_input_img _ _)
              ltac:(vm_compute; reflexivity) eq_refl
              ltac:(vm_compute; reflexivity) eq_refl ltac:(discriminate))
    as (preds & Hrun & Hsize).
  exists preds. rewrite Hrun. split; [reflexivity | exact Hsize].
Defined.

(** X9: too few output tensors.  When the runtime returns no tensor the
    report raises [IndexError] and prints nothing; so it does when
    PYBUDA_N300_DATA_PARALLEL is "1" and the runtime returns fewer than
    two tensors. *)
Theorem too_few_outputs_raise_index_error (w : World) (output : list tensor)
    (st : process) :
  (output = [] ∨
   (environ st !! data_parallel_flag = Some "1" ∧ (length output < 2)%nat)) ->
  densenet_report w output st =
    (Raise (IndexError "list index out of range"), st).
Proof.
  intros Hfew. rewrite densenet_report_cases.
  destruct (environ st !! data_parallel_flag) as [flag|] eqn:Hflag.
  - destruct (decide (flag = "1")) as [->|Hne].
    + destruct Hfew as [->|[_ Hlen]]; [reflexivity|].
      destruct output as [|o0 [|o1 rest]]; [reflexivity|reflexivity|].
      cbn in Hlen. lia.
    + destruct Hfew as [->|[[=] _]]; [|congruence].
      cbn [default from_option id]. by rewrite combine_outputs_off.
  - destruct Hfew as [->|[[=] _]]. reflexivity.
Qed.

Lemma too_few_outputs_raise_index_error_witness :
  densenet_report (demo_world [Wormhole_B0] [8; 8] 2)
    [ {| shape := [1; 18]; data := replicate 18 (1 # 2)%Q |} ]
    data_parallel_process =
  (Raise (IndexError "list index out of range"),
   data_parallel_process).
Proof.
  apply too_few_outputs_raise_index_error. right.
  split; [vm_compute; reflexivity | cbn; lia].
Defined.

(** X10: in a data-parallel run only the first two output tensors count.
    With PYBUDA_N300_DATA_PARALLEL set to "1" and two first outputs of
    shapes [n0 :: tl] and [n1 :: tl], the mapping is built from one
    tensor of shape [(n0 + n1) :: tl], the data of the first followed by
    the data of the second, and has min(n0 + n1, labels) keys; further
    outputs are dropped. *)
Theorem data_parallel_uses_first_two_outputs (w : World) (o0 o1 : tensor)
    (rest : list tensor) (n0 n1 : nat) (tl : list nat) (st : process) :
  NoDup (default_pathologies w) ->
  environ st !! data_parallel_flag = Some "1" ->
  shape o0 = n0 :: tl ->
  shape o1 = n1 :: tl ->
  densenet_report w (o0 :: o1 :: rest) st =
    densenet_print_preds w
      [ {| shape := (n0 + n1)%nat :: tl; data := data o0 ++ data o1 |} ] st ∧
  ∃ preds : gmap string tensor,
    densenet_report w (o0 :: o1 :: rest) st = (Ok tt, emit st [] [PrintDict preds]) ∧
    size preds = min (n0 + n1) (length (default_pathologies w)).
Proof.
  intros Hnd Hflag H0 H1.
  assert (Hcat : torch_cat [o0; o1] =
                 Ok {| shape := (n0 + n1)%nat :: tl; data := data o0 ++ data o1 |}).
  { unfold torch_cat. rewrite H0. cbn [forallb].
    unfold tail_shape_is. rewrite H0, H1.
    rewrite !bool_decide_eq_true_2 by reflexivity. cbn [andb].
    unfold dim0. cbn [fmap list_fmap sum_list_with sum_list concat].
    rewrite H0, H1. cbn [hd]. rewrite Nat.add_0_r, app_nil_r. reflexivity. }
  assert (Hcomb : combine_outputs "1" (o0 :: o1 :: rest) =
                  Ok [ {| shape := (n0 + n1)%nat :: tl; data := data o0 ++ data o1 |} ]).
  { unfold combine_outputs. cbn [list_index lookup list_lookup].
    destruct (decide ("1" = "1")) as [_|Hne]; [|by destruct Hne].
    by rewrite Hcat. }
  split.
  - rewrite densenet_report_cases, Hflag. cbn [default from_option id]. rewrite Hcomb.
    unfold densenet_print_preds, bind, lift, print, modify.
    destruct (postprocess _ _) as [p|e]; [|reflexivity].
    by rewrite emit_prints_only.
  - rewrite densenet_report_cases, Hflag. cbn [default from_option id]. rewrite Hcomb.
    assert (Hp : ∃ p, postprocess (default_pathologies w)
                   [ {| shape := (n0 + n1)%nat :: tl; data := data o0 ++ data o1 |} ]
                 = Ok p).
    { unfold postprocess, list_index, rows. cbn [lookup list_lookup shape]. by eexists. }
    destruct Hp as [p Hp]. rewrite Hp. exists p. split; [reflexivity|].
    by rewrite (postprocess_size _
                  [ {| shape := (n0 + n1)%nat :: tl; data := data o0 ++ data o1 |} ]
                  {| shape := (n0 + n1)%nat :: tl; data := data o0 ++ data o1 |}
                  p Hnd eq_refl Hp).
Qed.

Lemma data_parallel_uses_first_two_outputs_witness :
  ∃ preds : gmap string tensor,
    densenet_report (demo_world [Wormhole_B0] [8; 8] 2)
      [ {| shape := [1; 18]; data := replicate 18 (1 # 2)%Q |};
        {| shape := [1; 18]; data := replicate 18 (1 # 4)%Q |};
        {| shape := [1; 18]; data := replicate 18 (1 # 8)%Q |} ]
      data_parallel_process =
    (Ok tt,
     emit data_parallel_process
       [] [PrintDict preds]) ∧
    size preds = 2.
Proof.
  destruct (data_parallel_uses_first_two_outputs (demo_world [Wormhole_B0] [8; 8] 2)
              {| shape := [1; 18]; data := replicate 18 (1 # 2)%Q |}
              {| shape := [1; 18]; data := replicate 18 (1 # 4)%Q |}
              [ {| shape := [1; 18]; data := replicate 18 (1 # 8)%Q |} ]
              1 1 [18]
              data_parallel_process
              xrv_pathologies_nodup ltac:(vm_compute; reflexivity) eq_refl eq_refl)
    as (_ & preds & Hrep & Hsize).
  exists preds. split; [exact Hrep | exact Hsize].
Defined.

(* ===================================================================== *)
(** ** More about the configuration steps *)
(* ===================================================================== *)

Lemma densenet_configure_wormhole (w : World) (s : process) (ds : list BackendDevice) :
  detect_available_devices w = Wormhole_B0 :: ds ->
  compiler_cfg (densenet_configure w s).2 =
    set_default_df_override Float16_b
      (set_balancer_policy "Ribbon"
         (add_cpu_fallback_op "adv_index"
            (set_enable_tvm_constant_prop true
               (set_enable_tm_cpu_fallback true (compiler_cfg s))))) ∧
  environ (densenet_configure w s).2 =
    <["PYBUDA_DISABLE_CONSTANT_FOLDING" := "1"]> (environ s).
Proof.
  intros Hd. unfold densenet_configure. run_unfold. rewrite Hd.
  destruct (decide (Wormhole_B0 = Wormhole_B0)) as [_|Hne]; [|by destruct Hne].
  split; reflexivity.
Qed.

Lemma densenet_configure_other (w : World) (s : process) (d : BackendDevice)
    (ds : list BackendDevice) :
  detect_available_devices w = d :: ds ->
  d ≠ Wormhole_B0 ->
  compiler_cfg (densenet_configure w s).2 =
    set_balancer_policy "CNN"
      (add_cpu_fallback_op "adv_index"
         (set_enable_tvm_constant_prop true
            (set_enable_tm_cpu_fallback true (compiler_cfg s)))) ∧
  environ (densenet_configure w s).2 =
    <["PYBUDA_PAD_SPARSE_MM" := "{25:32}"]>
      (<["PYBUDA_DISABLE_CONSTANT_FOLDING" := "1"]> (environ s)).
Proof.
  intros Hd Hne. unfold densenet_configure. run_unfold. rewrite Hd.
  destruct (decide (d = Wormhole_B0)) as [Heq|_]; [by destruct Hne|].
  split; reflexivity.
Qed.

Lemma densenet_configure_none (w : World) (s : process) :
  detect_available_devices w = [] ->
  compiler_cfg (densenet_configure w s).2 =
    add_cpu_fallback_op "adv_index"
      (set_enable_tvm_constant_prop true
         (set_enable_tm_cpu_fallback true (compiler_cfg s))) ∧
  environ (densenet_configure w s).2 =
    <["PYBUDA_DISABLE_CONSTANT_FOLDING" := "1"]> (environ s).
Proof.
  intros Hd. unfold densenet_configure. run_unfold. rewrite Hd.
  split; reflexivity.
Qed.

(** X11: a DenseNet run, whatever its outcome, leaves the options it does
    not assign as they were, turns constant propagation on, and adds
    adv_index to the operators run on the CPU without removing any. *)
Theorem densenet_run_keeps_other_options (w : World) (batch_size : Z) (s : process) :
  enable_tvm_cpu_fallback
    (compiler_cfg (run_densenet_121_hf_xray_pytorch w batch_size s).2) =
    enable_tvm_cpu_fallback (compiler_cfg s) ∧
  default_dram_parameters
    (compiler_cfg (run_densenet_121_hf_xray_pytorch w batch_size s).2) =
    default_dram_parameters (compiler_cfg s) ∧
  input_queues_on_host
    (compiler_cfg (run_densenet_121_hf_xray_pytorch w batch_size s).2) =
    input_queues_on_host (compiler_cfg s) ∧
  amp_level (compiler_cfg (run_densenet_121_hf_xray_pytorch w batch_size s).2) =
    amp_level (compiler_cfg s) ∧
  enable_tvm_constant_prop
    (compiler_cfg (run_densenet_121_hf_xray_pytorch w batch_size s).2) = true ∧
  cpu_fallback_ops (compiler_cfg (run_densenet_121_hf_xray_pytorch w batch_size s).2) =
    {[ "adv_index" ]} ∪ cpu_fallback_ops (compiler_cfg s).
Proof.
  destruct (run_densenet_frame w batch_size s) as [_ ->].
  destruct (detect_available_devices w) as [|d ds] eqn:Hd.
  - destruct (densenet_configure_none w s Hd) as [-> _].
    cfg_fields. repeat split.
  - destruct (decide (d = Wormhole_B0)) as [->|Hne].
    + destruct (densenet_configure_wormhole w s ds Hd) as [-> _].
      cfg_fields. repeat split.
    + destruct (densenet_configure_other w s d ds Hd Hne) as [-> _].
      cfg_fields. repeat split.
Qed.

(** X12: the presets leave leftovers.  A run that detects a Wormhole_B0
    followed, in the same process, by a run that detects another device
    ends with the CNN balancer and the sparse-matmul padding of the
    second preset and still with the Float16_b override of the first;
    in the other order it ends with the Ribbon balancer and Float16_b
    and still with the padding variable. *)
Theorem presets_mix_across_runs (w1 w2 : World) (b1 b2 : Z) (s : process)
    (d : BackendDevice) (ds1 ds2 : list BackendDevice) :
  detect_available_devices w1 = Wormhole_B0 :: ds1 ->
  detect_available_devices w2 = d :: ds2 ->
  d ≠ Wormhole_B0 ->
  (applies_other_preset
     (run_densenet_121_hf_xray_pytorch w2 b2
        (run_densenet_121_hf_xray_pytorch w1 b1 s).2).2 ∧
   default_df_override
     (compiler_cfg
        (run_densenet_121_hf_xray_pytorch w2 b2
           (run_densenet_121_hf_xray_pytorch w1 b1 s).2).2) = Some Float16_b) ∧
  (applies_wormhole_preset
     (run_densenet_121_hf_xray_pytorch w1 b1
        (run_densenet_121_hf_xray_pytorch w2 b2 s).2).2 ∧
   environ
     (run_densenet_121_hf_xray_pytorch w1 b1
        (run_densenet_121_hf_xray_pytorch w2 b2 s).2).2
     !! "PYBUDA_PAD_SPARSE_MM" = Some "{25:32}").
Proof.
  intros H1 H2 Hne. unfold applies_other_preset, applies_wormhole_preset.
  split.
  - destruct (run_densenet_frame w2 b2 (run_densenet_121_hf_xray_pytorch w1 b1 s).2)
      as [-> ->].
    destruct (densenet_configure_other w2
                (run_densenet_121_hf_xray_pytorch w1 b1 s).2 d ds2 H2 Hne) as [-> ->].
    destruct (run_densenet_frame w1 b1 s) as [_ ->].
    destruct (densenet_configure_wormhole w1 s ds1 H1) as [-> _].
    cfg_fields. split; [split|]; try reflexivity. apply lookup_insert_eq.
  - destruct (run_densenet_frame w1 b1 (run_densenet_121_hf_xray_pytorch w2 b2 s).2)
      as [-> ->].
    destruct (densenet_configure_wormhole w1
                (run_densenet_121_hf_xray_pytorch w2 b2 s).2 ds1 H1) as [-> ->].
    destruct (run_densenet_frame w2 b2 s) as [-> _].
    destruct (densenet_configure_other w2 s d ds2 H2 Hne) as [_ ->].
    cfg_fields. split; [split|]; try reflexivity.
    rewrite lookup_insert_ne by done. apply lookup_insert_eq.
Qed.

Lemma presets_mix_across_runs_witness :
  default_df_override
    (compiler_cfg
       (run_densenet_121_hf_xray_pytorch (demo_world [Grayskull] [8; 8] 2) 1
          (run_densenet_121_hf_xray_pytorch (demo_world [Wormhole_B0] [8; 8] 2) 1
             fresh_process).2).2) = Some Float16_b.
Proof.
  exact (proj2 (proj1 (presets_mix_across_runs
                         (demo_world [Wormhole_B0] [8; 8] 2)
                         (demo_world [Grayskull] [8; 8] 2) 1 1 fresh_process
                         Grayskull [] [] eq_refl eq_refl ltac:(discriminate)))).
Defined.

(** X13: a batch size below 1 is not rejected.  The DenseNet run for a
    negative batch size is the run for 0, which stops in [torch.cat]
    once the image is loaded; the FLAN-T5 run prints nothing. *)
Theorem nonpositive_batch_size_not_rejected (w : World) (variant : string)
    (batch_size : Z) (s : process) :
  (batch_size ≤ 0)%Z ->
  run_densenet_121_hf_xray_pytorch w batch_size s =
    run_densenet_121_hf_xray_pytorch w 0 s ∧
  is_ok (run_densenet_121_hf_xray_pytorch w batch_size s).1 = false ∧
  stdout (run_flan_t5_pybuda_pipeline w variant batch_size s).2 = stdout s.
Proof.
  intros HB.
  assert (Hn : Z.to_nat batch_size = 0%nat) by lia.
  split; [|split].
  - rewrite !run_densenet_stages. change (Z.to_nat 0) with 0%nat. by rewrite Hn.
  - rewrite run_densenet_stages, Hn. cbn [replicate].
    destruct (get_input_img w _) as [[img|e] s2]; reflexivity.
  - destruct (flan_configure_ok w s) as (_ & _ & Hout).
    rewrite run_flan_stages. cbv zeta. rewrite Hn. cbn [seq for_each].
    revert Hout. generalize (flan_configure w s).2. intros s1 Hout.
    destruct (T5Config_from_pretrained w variant) as [cd|e]; [|done].
    destruct (AutoModel_from_pretrained w variant _) as [model|e]; [|done].
    destruct (AutoTokenizer_from_pretrained w variant) as [tok|e]; [|done].
    destruct (pybuda_pipeline w _) as [u|e]; [|done].
    destruct (text2text_generate w _ _ _ _) as [answer|e]; done.
Qed.

Lemma nonpositive_batch_size_not_rejected_witness :
  (run_densenet_121_hf_xray_pytorch (demo_world [Grayskull] [8; 8] 2) (-3) fresh_process).1 =
    Raise (RuntimeError "torch.cat(): expected a non-empty list of Tensors").
Proof.
  rewrite (proj1 (nonpositive_batch_size_not_rejected
                    (demo_world [Grayskull] [8; 8] 2) flan_default_variant (-3)
                    fresh_process ltac:(lia))).
  rewrite run_densenet_stages, demo_get_input_img. reflexivity.
Defined.

(* ===================================================================== *)
(** ** More about the FLAN-T5 run *)
(* ===================================================================== *)




Lemma for_each_app {A} (l1 l2 : list A) (f : A -> M unit) (s : process) :
  for_each (l1 ++ l2) f s =
    match for_each l1 f s with
    | (Ok _, s') => for_each l2 f s'
    | (Raise e, s') => (Raise e, s')
    end.
Proof.
  revert s. induction l1 as [|x l1 IH]; intros s; [reflexivity|].
  cbn [app for_each]. unfold bind.
  destruct (f x s) as [[u|e] s']; [apply IH | reflexivity].
Qed.

(** The loop over samples [j], [j+1], ... whose answers carry the
    generated texts [texts]. *)
Lemma for_each_report_ok (prefix_text : list string)
    (answer : list (gmap string string)) (texts : list string) (j : nat) (s : process) :
  (∀ i g, texts !! i = Some g ->
          prefix_text !! (j + i)%nat = Some flan_prompt ∧
          ∃ a, answer !! (j + i)%nat = Some a ∧ a !! "generated_text" = Some g) ->
  for_each (seq j (length texts)) (report_sample prefix_text answer) s =
    (Ok tt, emit s [] (concat (imap (fun i => sample_report (j + i)) texts))).
Proof.
  revert j s. induction texts as [|g texts IH]; intros j s H.
  - cbn. by rewrite emit_nil.
  - cbn [length seq for_each]. unfold bind.
    destruct (H 0%nat g eq_refl) as (Hp & a & Ha & Hg).
    rewrite Nat.add_0_r in Hp, Ha.
    rewrite (report_sample_ok _ _ j flan_prompt g a s Hp Ha Hg).
    rewrite IH.
    + rewrite emit_emit. cbn [app imap concat]. rewrite Nat.add_0_r.
      rewrite (imap_ext (fun i => sample_report (S j + i))
                 ((fun i => sample_report (j + i)) ∘ S) texts); [reflexivity|].
      intros i x _. cbn. by rewrite Nat.add_succ_r.
    + intros i x Hi. specialize (H (S i) x Hi).
      by rewrite Nat.add_succ_r in H.
Qed.

(** X15: a FLAN-T5 run whose collaborators succeed reports every sample.
    When the generator returns, for each of the [batch_size] samples, an
    answer with a generated text, the run returns normally and prints
    for each sample in order its number, the prompt and its text;
    further answers are not read. *)
Theorem flan_reports_every_sample (w : World) (variant : string) (batch_size : Z)
    (s : process) (cd : gmap string cfgval) (model : hf_model) (tok : string)
    (answer : list (gmap string string)) (texts : list string) :
  T5Config_from_pretrained w variant = Ok cd ->
  AutoModel_from_pretrained w variant (flan_config_dict cd) = Ok model ->
  AutoTokenizer_from_pretrained w variant = Ok tok ->
  pybuda_pipeline w (flan_generator (with_eval model) tok batch_size) = Ok tt ->
  text2text_generate w (environ (flan_configure w s).2)
    (compiler_cfg (flan_configure w s).2)
    (flan_generator (with_eval model) tok batch_size)
    (flan_request (replicate (Z.to_nat batch_size) flan_prompt)) = Ok answer ->
  length texts = Z.to_nat batch_size ->
  (∀ i g, texts !! i = Some g ->
          ∃ a, answer !! i = Some a ∧ a !! "generated_text" = Some g) ->
  (run_flan_t5_pybuda_pipeline w variant batch_size s).1 = Ok tt ∧
  stdout (run_flan_t5_pybuda_pipeline w variant batch_size s).2 =
    stdout s ++ flan_reports texts.
Proof.
  intros Hc Hm Ht Hp Hg Hlen Htexts.
  destruct (flan_configure_ok w s) as (_ & _ & Hout).
  rewrite run_flan_stages. cbv zeta. rewrite Hc, Hm, Ht, Hp, Hg.
  rewrite <- Hlen.
  rewrite (for_each_report_ok _ answer texts 0).
  - cbn [fst snd emit stdout]. rewrite !log_stdout, Hout. done.
  - intros i g Hi. cbn [Nat.add]. split; [|by apply Htexts].
    apply lookup_replicate_2. apply lookup_lt_Some in Hi. lia.
Qed.

Lemma flan_reports_every_sample_witness :
  stdout (run_flan_t5_pybuda_pipeline (demo_world [Grayskull] [8; 8] 2)
            flan_default_variant 2 fresh_process).2 =
    sample_report 0 canned_answer ++ sample_report 1 canned_answer.
Proof.
  destruct (flan_reports_every_sample (demo_world [Grayskull] [8; 8] 2)
              flan_default_variant 2 fresh_process
              ({[ "model_type" := CStr "t5"; "use_cache" := CBool true ]})
              {| model_ckpt := flan_default_variant;
                 model_config :=
                   flan_config_dict
                     ({[ "model_type" := CStr "t5"; "use_cache" := CBool true ]});
                 eval_mode := false |}
              flan_default_variant
              [canned_generator flan_prompt; canned_generator flan_prompt]
              [canned_answer; canned_answer]
              eq_refl eq_refl eq_refl eq_refl eq_refl eq_refl) as [_ Hout].
  - intros [|[|i]] g Hi; [| |discriminate Hi];
      injection Hi as <-; eexists; (split; [reflexivity|]); by vm_compute.
  - rewrite Hout. reflexivity.
Defined.

Lemma report_sample_fails (prefix_text : list string)
    (answer : list (gmap string string)) (i : nat) (e : exn) (s : process) :
  prefix_text !! i = Some flan_prompt ->
  (answer !! i = None ∧ e = IndexError "list index out of range") ∨
  (∃ a, answer !! i = Some a ∧ a !! "generated_text" = None ∧
        e = KeyError "generated_text") ->
  report_sample prefix_text answer i s = (Raise e, emit s [] (sample_header i)).
Proof.
  intros Hp Hfail. unfold report_sample, list_index, dict_index.
  unfold bind, print, modify, lift. rewrite Hp.
  destruct Hfail as [[Ha ->] | (a & Ha & Hg & ->)]; rewrite Ha; [|rewrite Hg];
    unfold emit, sample_header; cbn [environ compiler_cfg events stdout];
    by rewrite app_nil_r, <- !app_assoc.
Qed.

(** X16: the report stops at the first sample without a generated text.
    When the first [k < batch_size] answers carry a text and answer [k]
    is missing, the run raises [IndexError]; when answer [k] has no
    "generated_text" entry it raises [KeyError].  Either way the [k]
    complete reports and the number and prompt of sample [k] have been
    printed by then. *)
Theorem flan_report_stops_at_missing_text (w : World) (variant : string)
    (batch_size : Z) (s : process) (cd : gmap string cfgval) (model : hf_model)
    (tok : string) (answer : list (gmap string string)) (texts : list string)
    (e : exn) :
  T5Config_from_pretrained w variant = Ok cd ->
  AutoModel_from_pretrained w variant (flan_config_dict cd) = Ok model ->
  AutoTokenizer_from_pretrained w variant = Ok tok ->
  pybuda_pipeline w (flan_generator (with_eval model) tok batch_size) = Ok tt ->
  text2text_generate w (environ (flan_configure w s).2)
    (compiler_cfg (flan_configure w s).2)
    (flan_generator (with_eval model) tok batch_size)
    (flan_request (replicate (Z.to_nat batch_size) flan_prompt)) = Ok answer ->
  (length texts < Z.to_nat batch_size)%nat ->
  (∀ i g, texts !! i = Some g ->
          ∃ a, answer !! i = Some a ∧ a !! "generated_text" = Some g) ->
  (answer !! length texts = None ∧ e = IndexError "list index out of range") ∨
  (∃ a, answer !! length texts = Some a ∧ a !! "generated_text" = None ∧
        e = KeyError "generated_text") ->
  (run_flan_t5_pybuda_pipeline w variant batch_size s).1 = Raise e ∧
  stdout (run_flan_t5_pybuda_pipeline w variant batch_size s).2 =
    stdout s ++ flan_reports texts ++ sample_header (length texts).
Proof.
  intros Hc Hm Ht Hp Hg Hlen Htexts Hfail.
  destruct (flan_configure_ok w s) as (_ & _ & Hout).
  rewrite run_flan_stages. cbv zeta. rewrite Hc, Hm, Ht, Hp, Hg.
  assert (Hseq : seq 0 (Z.to_nat batch_size) =
                 seq 0 (length texts) ++
                   length texts :: seq (S (length texts))
                                     (Z.to_nat batch_size - S (length texts))).
  { replace (Z.to_nat batch_size)
      with (length texts + S (Z.to_nat batch_size - S (length texts)))%nat at 1 by lia.
    by rewrite seq_app. }
  rewrite Hseq, for_each_app.
  rewrite (for_each_report_ok _ answer texts 0).
  2:{ intros i g Hi. cbn [Nat.add]. split; [|by apply Htexts].
      apply lookup_replicate_2. apply lookup_lt_Some in Hi. lia. }
  cbn [for_each]. unfold bind.
  rewrite (report_sample_fails _ answer (length texts) e); [| |exact Hfail].
  2:{ apply lookup_replicate_2. lia. }
  rewrite emit_emit. cbn [fst snd emit stdout]. rewrite !log_stdout, Hout. done.
Qed.

Lemma flan_report_stops_at_missing_text_witness :
  (run_flan_t5_pybuda_pipeline
     (with_answer (demo_world [Grayskull] [8; 8] 2) (Ok [canned_generator flan_prompt]))
     flan_default_variant 2 fresh_process).1 =
    Raise (IndexError "list index out of range") ∧
  (run_flan_t5_pybuda_pipeline
     (with_answer (demo_world [Grayskull] [8; 8] 2) (Ok [ ∅ ]))
     flan_default_variant 1 fresh_process).1 =
    Raise (KeyError "generated_text").
Proof.
  split.
  - refine (proj1 (flan_report_stops_at_missing_text
                     (with_answer (demo_world [Grayskull] [8; 8] 2)
                        (Ok [canned_generator flan_prompt]))
                     flan_default_variant 2 fresh_process
                     ({[ "model_type" := CStr "t5"; "use_cache" := CBool true ]})
                     {| model_ckpt := flan_default_variant;
                        model_config :=
                          flan_config_dict
                            ({[ "model_type" := CStr "t5"; "use_cache" := CBool true ]});
                        eval_mode := false |}
                     flan_default_variant
                     [canned_generator flan_prompt] [canned_answer]
                     (IndexError "list index out of range")
                     eq_refl eq_refl eq_refl eq_refl eq_refl _ _ _)).
    + cbn. lia.
    + intros [|i] g Hi; [|discriminate Hi].
      injection Hi as <-. eexists. split; [reflexivity|]. by vm_compute.
    + left. split; reflexivity.
  - refine (proj1 (flan_report_stops_at_missing_text
                     (with_answer (demo_world [Grayskull] [8; 8] 2) (Ok [ ∅ ]))
                     flan_default_variant 1 fresh_process
                     ({[ "model_type" := CStr "t5"; "use_cache" := CBool true ]})
                     {| model_ckpt := flan_default_variant;
                        model_config :=
                          flan_config_dict
                            ({[ "model_type" := CStr "t5"; "use_cache" := CBool true ]});
                        eval_mode := false |}
                     flan_default_variant
                     [ ∅ ] []
                     (KeyError "generated_text")
                     eq_refl eq_refl eq_refl eq_refl eq_refl _ _ _)).
    + cbn. lia.
    + intros i g Hi. discriminate Hi.
    + right. exists ∅. split; [reflexivity|]. split; [apply lookup_empty | reflexivity].
Defined.

(** X17: a failure of a collaborator is the result of the FLAN-T5 run.
    Whatever a hub fetch, the generator's constructor or the generator
    raises comes out of the runner unchanged and nothing is printed. *)
Theorem flan_failures_propagate (w : World) (variant : string) (batch_size : Z)
    (s : process) (e : exn) :
  (T5Config_from_pretrained w variant = Raise e ∨
   (∃ cd, T5Config_from_pretrained w variant = Ok cd ∧
      (AutoModel_from_pretrained w variant (flan_config_dict cd) = Raise e ∨
       (∃ model, AutoModel_from_pretrained w variant (flan_config_dict cd) = Ok model ∧
          (AutoTokenizer_from_pretrained w variant = Raise e ∨
           (∃ tok, AutoTokenizer_from_pretrained w variant = Ok tok ∧
              (pybuda_pipeline w (flan_generator (with_eval model) tok batch_size)
                 = Raise e ∨
               (pybuda_pipeline w (flan_generator (with_eval model) tok batch_size)
                  = Ok tt ∧
                text2text_generate w (environ (flan_configure w s).2)
                  (compiler_cfg (flan_configure w s).2)
                  (flan_generator (with_eval model) tok batch_size)
                  (flan_request (replicate (Z.to_nat batch_size) flan_prompt))
                  = Raise e)))))))) ->
  (run_flan_t5_pybuda_pipeline w variant batch_size s).1 = Raise e ∧
  stdout (run_flan_t5_pybuda_pipeline w variant batch_size s).2 = stdout s.
Proof.
  intros Hfail.
  destruct (flan_configure_ok w s) as (_ & _ & Hout).
  rewrite run_flan_stages. cbv zeta.
  destruct Hfail as [-> | (cd & -> & Hfail)];
    [cbn [fst snd]; by rewrite !log_stdout, Hout|].
  destruct Hfail as [-> | (model & -> & Hfail)];
    [cbn [fst snd]; by rewrite !log_stdout, Hout|].
  destruct Hfail as [-> | (tok & -> & Hfail)];
    [cbn [fst snd]; by rewrite !log_stdout, Hout|].
  destruct Hfail as [-> | (-> & ->)];
    cbn [fst snd]; by rewrite !log_stdout, Hout.
Qed.

Lemma flan_failures_propagate_witness :
  (run_flan_t5_pybuda_pipeline
     (with_hub_fault (demo_world [Grayskull] [8; 8] 2) (ExternalError "not found"))
     "google/flan-t5-huge" 1 fresh_process).1 = Raise (ExternalError "not found").
Proof.
  apply (flan_failures_propagate
           (with_hub_fault (demo_world [Grayskull] [8; 8] 2) (ExternalError "not found"))
           "google/flan-t5-huge" 1 fresh_process (ExternalError "not found")).
  left. reflexivity.
Defined.

(* ===================================================================== *)
(** ** Effects of the image load and order of the calls *)
(* ===================================================================== *)

(** X4: the image load makes one call, the GET of the fixed URL, and
    changes neither the environment nor the compiler configuration.  It
    prints nothing, except on the path that then ends in the
    [IndexError] of the colour-channel indexing, where it prints the
    rank message once. *)
Theorem image_load_effects (w : World) (s : process) :
  environ (get_input_img w s).2 = environ s ∧
  compiler_cfg (get_input_img w s).2 = compiler_cfg s ∧
  events (get_input_img w s).2 = events s ++ [EvHttpGet xray_url] ∧
  (stdout (get_input_img w s).2 = stdout s ∨
   (stdout (get_input_img w s).2 = stdout s ++ [PrintStr rank_error_message] ∧
    (get_input_img w s).1 = Raise (IndexError "too many indices for array"))).
Proof.
  rewrite get_input_img_cases.
  assert (Hnone : ∀ r : result tensor,
    environ (r, emit s [EvHttpGet xray_url] []).2 = environ s ∧
    compiler_cfg (r, emit s [EvHttpGet xray_url] []).2 = compiler_cfg s ∧
    events (r, emit s [EvHttpGet xray_url] []).2 = events s ++ [EvHttpGet xray_url] ∧
    (stdout (r, emit s [EvHttpGet xray_url] []).2 = stdout s ∨
     (stdout (r, emit s [EvHttpGet xray_url] []).2 =
        stdout s ++ [PrintStr rank_error_message] ∧
      (r, emit s [EvHttpGet xray_url] []).1 =
        Raise (IndexError "too many indices for array")))).
  { intros r. cbn. rewrite app_nil_r. split; [done|]. split; [done|]. split; [done|]. by left. }
  destruct (fetch_image w xray_url) as [raw|e]; [|apply Hnone].
  destruct (xrv_normalize w raw 255) as [a|e]; [|apply Hnone].
  destruct (if Nat.ltb 2 (rank a) then _ else _) as [a'|e]; [|apply Hnone].
  destruct (new_axis_2d a') as [c|e] eqn:Hax.
  - destruct (xrv_transform w c) as [t|e]; apply Hnone.
  - destruct (Nat.ltb (rank a') 2) eqn:Hr; [|apply Hnone].
    apply Nat.ltb_lt in Hr. rewrite (new_axis_2d_low_rank _ Hr) in Hax.
    injection Hax as <-. cbn. split; [done|]. split; [done|]. split; [done|]. right. by split.
Qed.


(* ===================================================================== *)
(** ** More about the test harness *)
(* ===================================================================== *)



(** X19: the variant list of every parametrized test is not empty and has
    no duplicates, so the test ids taken from it are distinct. *)
Theorem test_variants_are_distinct (t : Harness.test_function) (vs : list string) :
  t ∈ Harness.all_tests ->
  Harness.parametrize t = Some vs ->
  vs ≠ [] ∧ NoDup vs.
Proof.
  intros Ht. unfold Harness.all_tests in Ht.
  repeat (apply elem_of_cons in Ht as [-> | Ht]); [..|by apply elem_of_nil in Ht];
    cbn; intros [= <-];
    (split; [discriminate | apply (bool_decide_unpack _); by vm_compute]).
Qed.

Lemma test_variants_are_distinct_witness :
  Harness.variants1 ≠ [] ∧ NoDup Harness.variants1.
Proof.
  apply (test_variants_are_distinct Harness.test_vgg_19_hf_pytorch).
  - unfold Harness.all_tests. repeat (first [ by left | right ]).
  - reflexivity.
Defined.

(* ===================================================================== *)
(** ** The model configuration of the FLAN-T5 run *)
(* ===================================================================== *)


